(** * BookBlend: [api/helper_functions.py]

    A shallow embedding of the scraping helpers of BookBlend and the
    properties established about them.

    Conventions of the embedding.
    - Python [str] values are [string]s.  The whitespace class used by
      [str.split()], [str.strip()] and the regular expression class [\s] is
      the ASCII part of Python's table (code points 9-13, 28-31 and 32).
    - A pandas cell that may be [NaN] / [pd.NA] / [NaT] is an [option]; a
      [Series] is the list of its cells and a [DataFrame] the list of its rows.
    - Python exceptions are values of [exn]; code that may raise returns a
      [result], and [try ... except E] is [try_except].
    - Calls that leave the process (the HTTP fetch of a page, pandas'
      date parser, the [re] engine on the profile page) are parameters of the
      sections that use them. *)

From stdpp Require Import base option list gmap strings.
From Stdlib Require Import ZArith NArith QArith Ascii Lia.

Local Open Scope Z_scope.

(** ** Exceptions and results *)

Inductive exn : Type :=
| TypeError
| AttributeError
| KeyError
| HTTPException (status_code : Z) (detail : string).

Global Instance exn_eq_dec : EqDecision exn.
Proof. solve_decision. Defined.

Inductive result (A : Type) : Type :=
| Return (a : A)
| Raise (e : exn).
Arguments Return {A} a.
Arguments Raise {A} e.

Global Instance result_ret : MRet result := λ A a, Return a.
Global Instance result_bind : MBind result := λ A B k m,
  match m with
  | Return a => k a
  | Raise e => Raise e
  end.

(** [try: body except E: handler] -- only an exception equal to [E] is
    caught, every other one propagates. *)
Definition try_except {A} (body : result A) (E : exn) (handler : A) : result A :=
  match body with
  | Return a => Return a
  | Raise e => if decide (e = E) then Return handler else Raise e
  end.

(** ** Python string primitives *)

Module PyStr.

Definition is_space (c : ascii) : bool :=
  let n := N_of_ascii c in
  ((9 <=? n) && (n <=? 13) || (28 <=? n) && (n <=? 32))%N.

Definition is_digit (c : ascii) : bool :=
  let n := N_of_ascii c in
  ((48 <=? n) && (n <=? 57))%N.

Definition is_newline (c : ascii) : bool := Ascii.eqb c "010"%char.

(** [s.startswith(p)] *)
Fixpoint startswith (p s : string) : bool :=
  match p, s with
  | EmptyString, _ => true
  | String _ _, EmptyString => false
  | String a p', String b s' => Ascii.eqb a b && startswith p' s'
  end.

(** [s[n:]] *)
Fixpoint drop (n : nat) (s : string) : string :=
  match n, s with
  | O, _ => s
  | S _, EmptyString => EmptyString
  | S n', String _ s' => drop n' s'
  end.

(** [s.find(sub)]: index of the leftmost occurrence, if any. *)
Fixpoint find (sub s : string) : option nat :=
  if startswith sub s then Some O
  else match s with
       | EmptyString => None
       | String _ s' => S <$> find sub s'
       end.

(** [sub in s] *)
Definition contains (sub s : string) : bool := bool_decide (is_Some (find sub s)).

(** [s.replace(old, new, 1)]: only the leftmost occurrence is replaced. *)
Fixpoint replace1 (old new s : string) : string :=
  if startswith old s then new +:+ drop (String.length old) s
  else match s with
       | EmptyString => EmptyString
       | String c s' => String c (replace1 old new s')
       end.

(** [s.replace(c, '')] for a one-character [c]: every occurrence goes. *)
Fixpoint remove_char (c : ascii) (s : string) : string :=
  match s with
  | EmptyString => EmptyString
  | String a s' => if Ascii.eqb a c then remove_char c s' else String a (remove_char c s')
  end.

Fixpoint lstrip (s : string) : string :=
  match s with
  | EmptyString => EmptyString
  | String c s' => if is_space c then lstrip s' else s
  end.

Fixpoint rstrip (s : string) : string :=
  match s with
  | EmptyString => EmptyString
  | String c s' =>
      match rstrip s' with
      | EmptyString => if is_space c then EmptyString else String c EmptyString
      | r => String c r
      end
  end.

(** [s.strip()] *)
Definition strip (s : string) : string := rstrip (lstrip s).

(** Every character of [s] passes the test [P]. *)
Fixpoint all_chars (P : ascii → bool) (s : string) : bool :=
  match s with
  | EmptyString => true
  | String c s' => P c && all_chars P s'
  end.

Definition no_space (s : string) : bool := all_chars (λ c, negb (is_space c)) s.
Definition no_newline (s : string) : bool := all_chars (λ c, negb (is_newline c)) s.
Definition no_digit (s : string) : bool := all_chars (λ c, negb (is_digit c)) s.
Definition all_digits (s : string) : bool := all_chars is_digit s.

(** A non-empty run without whitespace: what [split()] returns. *)
Definition is_word (w : string) : Prop := w ≠ "" ∧ no_space w = true.

(** [s] does not begin with whitespace. *)
Definition starts_clean (s : string) : Prop :=
  match s with
  | EmptyString => True
  | String c _ => is_space c = false
  end.

Definition cons_word (w : string) (ws : list string) : list string :=
  match w with
  | EmptyString => ws
  | _ => w :: ws
  end.

(** [split_aux s] is the word [s] begins with (empty when [s] begins with
    whitespace) and the words after it. *)
Fixpoint split_aux (s : string) : string * list string :=
  match s with
  | EmptyString => (EmptyString, [])
  | String c s' =>
      let '(w, ws) := split_aux s' in
      if is_space c then (EmptyString, cons_word w ws) else (String c w, ws)
  end.

(** [s.split()]: the maximal whitespace-free runs of [s], in order. *)
Definition split (s : string) : list string :=
  let '(w, ws) := split_aux s in cons_word w ws.

(** [s.split(sep)] for a one-character separator: never empty. *)
Fixpoint split_on (sep : ascii) (s : string) : list string :=
  match s with
  | EmptyString => [EmptyString]
  | String c s' =>
      match split_on sep s' with
      | [] => [String c EmptyString]
      | w :: ws => if Ascii.eqb c sep then EmptyString :: w :: ws else String c w :: ws
      end
  end.

End PyStr.

(** ** Inbound authentication: [get_api_key] *)

Definition HTTP_401_UNAUTHORIZED : Z := 401.

Section ApiKey.
(** [os.getenv("BOOKBLEND_API_KEY")]: [None] when the variable is unset. *)
Variable BOOKBLEND_API_KEY : option string.

(** A [str] equals the configured value only when that value is a [str]
    with the same characters; a [str] never equals [None]. *)
Definition get_api_key (api_key_header : string) : result string :=
  if decide (Some api_key_header = BOOKBLEND_API_KEY) then Return api_key_header
  else Raise (HTTPException HTTP_401_UNAUTHORIZED "401: Invalid API Key").
End ApiKey.

(** ** Book list parser: the per-cell transforms of
       [get_goodreads_user_books_by_page] *)

Module Parser.
Import PyStr.

(** [x.replace('title ', '', 1)] followed by [.str.strip()]. *)
Definition parse_title (x : string) : string :=
  strip (replace1 "title " "" x).

(** [x.replace('author ', '', 1)], then [x.replace(' *', '', 1)], then
    [.str.strip()]. *)
Definition parse_author (x : string) : string :=
  strip (replace1 " *" "" (replace1 "author " "" x)).

(** *** [user_rating] *)

Fixpoint until_newline (s : string) : string :=
  match s with
  | EmptyString => EmptyString
  | String c s' => if is_newline c then EmptyString else String c (until_newline s')
  end.

(** The tail [\s*(.*?)$] of the rating pattern, on the text after
    ['s rating]: the whitespace is skipped, and what follows must be one
    line, ended by the end of the text or by its final newline. *)
Definition rating_tail (r : string) : option string :=
  let t := lstrip r in
  let u := until_newline t in
  let rest := drop (String.length u) t in
  if decide (rest = "" ∨ rest = String "010" "") then Some u else None.

(** The lazy group [(.+?)] has consumed at least one character and stands
    before [s]: it tries the rest of the pattern here and otherwise takes
    one more character, which may not be a newline. *)
Fixpoint rating_lazy (s : string) : option string :=
  match (if startswith "'s rating" s then rating_tail (drop 9 s) else None) with
  | Some g => Some g
  | None =>
      match s with
      | EmptyString => None
      | String c s' => if is_newline c then None else rating_lazy s'
      end
  end.

(** [re.search] of [(.+?)'s rating\s*(.*?)$]: every start position from
    the left; the result is group 2 (column [1] of [str.extract]). *)
Fixpoint rating_search (s : string) : option string :=
  match s with
  | EmptyString => None
  | String c s' =>
      match (if is_newline c then None else rating_lazy s') with
      | Some g => Some g
      | None => rating_search s'
      end
  end.

Definition rating_mapping : gmap string Z :=
  {[ "did not like it" := 1; "it was ok" := 2; "liked it" := 3;
     "really liked it" := 4; "it was amazing" := 5 ]}.

(** [.str.extract(...)[1].str.strip()] then [.map(rating_mapping)]. *)
Definition rating_phrase (cell : option string) : option string :=
  s ← cell; strip <$> rating_search s.

Definition user_rating (cell : option string) : option Z :=
  phrase ← rating_phrase cell; rating_mapping !! phrase.

(** *** [read?] *)

Fixpoint digit_run (s : string) : string :=
  match s with
  | EmptyString => EmptyString
  | String c s' => if is_digit c then String c (digit_run s') else EmptyString
  end.

(** [.str.extract(r'(\d+)')[0]]: the leftmost maximal run of digits. *)
Fixpoint extract_digits (s : string) : option string :=
  match s with
  | EmptyString => None
  | String c s' => if is_digit c then Some (digit_run s) else extract_digits s'
  end.

Fixpoint parse_digits (acc : N) (s : string) : option N :=
  match s with
  | EmptyString => Some acc
  | String c s' =>
      if is_digit c then parse_digits (10 * acc + (N_of_ascii c - 48)) s' else None
  end.

(** [pd.to_numeric(..., errors='coerce')] on a cell holding decimal
    digits; anything else is coerced to [NaN]. *)
Definition to_numeric (x : option string) : option N :=
  s ← x; match s with EmptyString => None | _ => parse_digits 0 s end.

Definition votes_count (cell : option string) : option N :=
  to_numeric (cell ≫= extract_digits).

(** [series > 0]: a comparison with [NaN] is [False]. *)
Definition gt_zero (x : option N) : bool :=
  match x with
  | Some n => (0 <? n)%N
  | None => false
  end.

Definition read_flag (cell : option string) : bool := gt_zero (votes_count cell).

End Parser.

(** ** Date normalizer: [format_date] and [format_and_convert_date] *)

Record Timestamp : Type := { year : Z; month : Z; day : Z }.

Module Dates.
Import PyStr.

(** [format_date]: text in, text (or [pd.NA]) out. *)
Definition format_date (date_str : option string) : option string :=
  match date_str with
  | None => None
  | Some s =>
      if contains "not set" s then None
      else match split s with
           | [p0; p1] => Some (p0 +:+ " 1, " +:+ p1)
           | _ => Some s
           end
  end.

(** [series.str.extract(date_pattern)[0]] for the two patterns the parser
    passes, a literal [label], then [\s*], then a group taking the rest of
    the line: the leftmost occurrence of [label] is the match. *)
Definition extract_after (label : string) (cell : option string) : option string :=
  s ← cell;
  i ← find label s;
  Some (Parser.until_newline (lstrip (drop (i + String.length label) s))).

(** [series.replace('not set', pd.NA)] *)
Definition replace_not_set (x : option string) : option string :=
  match x with
  | Some s => if decide (s = "not set") then None else Some s
  | None => None
  end.

(** The [lambda] of [format_and_convert_date]. *)
Definition insert_default_day (x : option string) : option string :=
  match x with
  | Some s =>
      match split s with
      | [p0; p1] => Some (p0 +:+ " 1, " +:+ p1)
      | _ => Some s
      end
  | None => None
  end.

(** The text handed to the date parser for one extracted value. *)
Definition normalize_text (x : option string) : option string :=
  insert_default_day (replace_not_set x).

Section Convert.
(** [pd.to_datetime(..., errors='coerce')] on one text cell of the series
    at hand: the date it reads, or [NaT]. *)
Variable to_datetime : string → option Timestamp.

(** The date normalizer on one extracted text value. *)
Definition convert_date (x : option string) : option Timestamp :=
  normalize_text x ≫= to_datetime.

Definition format_and_convert_date
    (series : list (option string)) (label : string) : list (option Timestamp) :=
  (λ cell, convert_date (extract_after label cell)) <$> series.
End Convert.

End Dates.

(** ** Frames: book rows, genre rows and merged rows *)

(** One row of the frame [get_goodreads_user_books_by_page] returns, with
    its columns after the renames. *)
Record Book : Type := {
  title : string;
  author : string;
  pages : option N;
  avg_goodreads_rating : option Q;
  total_goodreads_ratings : option N;
  pub : option N;
  user_rating : option Z;
  read : bool;
  date_read : option Timestamp;
  date_added : option Timestamp;
  goodreads_id : option string
}.

(** One row of the frame [get_genres_from_hardcover] builds. *)
Record Genre : Type := {
  external_id : option string;
  tags : list string
}.

(** One row of the merged frame: the left columns, then the right ones,
    which are [NaN] when the left row found no partner. *)
Record Merged : Type := {
  book : Book;
  merged_external_id : option string;
  merged_tags : option (list string)
}.

(** A frame as [pd.merge] sees it: it has the columns of its rows, or it
    is the frame without columns, and so without rows, that
    [pd.DataFrame()] and [pd.DataFrame([])] build. *)
Inductive DataFrame (Row : Type) : Type :=
| NoColumns
| Frame (rows : list Row).
Arguments NoColumns {Row}.
Arguments Frame {Row} rows.

(** [pd.DataFrame(records)] for a list of dicts: the columns are the keys of
    the records, so a list without records gives a frame without columns. *)
Definition pd_DataFrame {Row : Type} (records : list Row) : DataFrame Row :=
  match records with
  | [] => NoColumns
  | _ => Frame records
  end.

(** [len(df)] rows. *)
Definition frame_rows {Row : Type} (df : DataFrame Row) : list Row :=
  match df with
  | NoColumns => []
  | Frame rows => rows
  end.

(** ** Pagination driver: [get_all_goodreads_user_books] *)

Module Pagination.
Section Driver.
(** The page fetcher and parser, as seen by the driver: the rows of page
    [page_num] of the list of [user_id]. *)
Variable get_goodreads_user_books_by_page : Z → Z → list Book.

(** The variables of the loop, and the pages requested so far. *)
Record state : Type := {
  page_num : Z;
  all_books_df : list Book;
  requested : list Z
}.

Definition initial : state :=
  {| page_num := 1; all_books_df := []; requested := [] |}.

(** One pass through the body of [while True]: [inr] is [break]. *)
Definition body (user_id : Z) (st : state) : state + state :=
  let books_on_page := get_goodreads_user_books_by_page user_id (page_num st) in
  let log := requested st ++ [page_num st] in
  match books_on_page with
  | [] => inr {| page_num := page_num st; all_books_df := all_books_df st; requested := log |}
  | _ => inl {| page_num := page_num st + 1;
                all_books_df := all_books_df st ++ books_on_page;
                requested := log |}
  end.

(** The loop, cut off after [fuel] passes. *)
Fixpoint loop (fuel : nat) (user_id : Z) (st : state) : option state :=
  match fuel with
  | O => None
  | S fuel' =>
      match body user_id st with
      | inr final => Some final
      | inl st' => loop fuel' user_id st'
      end
  end.

Definition run (fuel : nat) (user_id : Z) : option state := loop fuel user_id initial.

Definition get_all_goodreads_user_books (fuel : nat) (user_id : Z) : option (list Book) :=
  all_books_df <$> run fuel user_id.

(** Pages [1..n], one after the other. *)
Definition pages_upto (user_id : Z) (n : nat) : list Book :=
  concat ((λ i, get_goodreads_user_books_by_page user_id (Z.of_nat i)) <$> seq 1 n).

(** Page [n + 1] is the first empty page. *)
Definition first_empty (user_id : Z) (n : nat) : Prop :=
  (∀ i, (1 ≤ i ≤ n)%nat → get_goodreads_user_books_by_page user_id (Z.of_nat i) ≠ []) ∧
  get_goodreads_user_books_by_page user_id (Z.of_nat (S n)) = [].
End Driver.
End Pagination.

(** ** Merger: [combine_goodreads_and_hardcover] *)

Module Merger.

(** The right rows whose key equals [k], in their order; [pd.merge] matches
    a null key with a null key. *)
Definition partners (k : option string) (hardcover_df : list Genre) : list Genre :=
  filter (λ g, external_id g = k) hardcover_df.

Definition unmatched (b : Book) : Merged :=
  {| book := b; merged_external_id := None; merged_tags := None |}.

Definition matched (b : Book) (g : Genre) : Merged :=
  {| book := b; merged_external_id := external_id g; merged_tags := Some (tags g) |}.

Definition merge_row (hardcover_df : list Genre) (b : Book) : list Merged :=
  match partners (goodreads_id b) hardcover_df with
  | [] => [unmatched b]
  | gs => matched b <$> gs
  end.

(** The rows of a left join of two frames that have their key column: the
    left rows in their order, each with its partners. *)
Definition left_join (left_rows : list Book) (right_rows : list Genre) : list Merged :=
  left_rows ≫= merge_row right_rows.

(** [pd.merge(goodreads_df, hardcover_df, left_on='goodreads_id',
    right_on='external_id', how='left')].  The key columns are looked up
    first: a frame without its key column raises [KeyError], whatever the
    other frame is. *)
Definition combine_goodreads_and_hardcover
    (goodreads_df : DataFrame Book) (hardcover_df : DataFrame Genre) : result (list Merged) :=
  match goodreads_df, hardcover_df with
  | Frame left_rows, Frame right_rows => Return (left_join left_rows right_rows)
  | _, _ => Raise KeyError
  end.

(** The left rows with key [k]. *)
Definition with_key (k : option string) (goodreads_df : list Book) : list Book :=
  filter (λ b, goodreads_id b = k) goodreads_df.

End Merger.

(** ** Profile scraper: [get_user_info] *)

Module Profile.
Import PyStr.

Record Tag : Type := {
  tag_name : string;
  tag_attrs : gmap string string;
  tag_text : string
}.

(** A parsed page: its elements in document order, and [soup.text]. *)
Record BeautifulSoup : Type := {
  soup_tags : list Tag;
  soup_text : string
}.

Definition matches (name : string) (attrs : option (string * string)) (t : Tag) : bool :=
  bool_decide (tag_name t = name) &&
  match attrs with
  | Some (a, v) => bool_decide (tag_attrs t !! a = Some v)
  | None => true
  end.

(** [soup.find(name)] and [soup.find(name, {attr: value})]: the first
    element that fits, or [None]. *)
Definition soup_find (soup : BeautifulSoup) (name : string)
    (attrs : option (string * string)) : option Tag :=
  List.find (matches name attrs) (soup_tags soup).

(** [tag[key]]: subscripting [None] is a [TypeError], a tag without the
    attribute a [KeyError]. *)
Definition getitem (tag : option Tag) (key : string) : result string :=
  match tag with
  | None => Raise TypeError
  | Some t =>
      match tag_attrs t !! key with
      | Some v => Return v
      | None => Raise KeyError
      end
  end.

(** [tag.text] *)
Definition get_text (tag : option Tag) : result string :=
  match tag with
  | None => Raise AttributeError
  | Some t => Return (tag_text t)
  end.

(** [match.group(1)] on what [re.search] returned. *)
Definition group1 (m : option string) : result string :=
  match m with
  | None => Raise AttributeError
  | Some g => Return g
  end.

(** [canonical_link.split('/')[-1].split('-')[0]] *)
Definition id_of_link (canonical_link : string) : string :=
  default "" (head (split_on "-" (default "" (last (split_on "/" canonical_link))))).

Definition count_pattern : string := "(\d{1,3}(?:,\d{3})*|\d+)".

Section Scraper.
(** [re.search(pattern, text)], reduced to what the scraper reads from
    the match: its group 1, or [None] when nothing matches. *)
Variable re_search : string → string → option string.

Definition meta_content (soup : BeautifulSoup) (property : string) : result string :=
  try_except (getitem (soup_find soup "meta" (Some ("property", property))) "content")
             TypeError "".

Definition count_in (pattern text : string) : result string :=
  try_except (g ← group1 (re_search pattern text); mret (remove_char "," g))
             AttributeError "".

Definition get_user_info (soup : BeautifulSoup) : result (gmap string string) :=
  user_id ← try_except
    (canonical_link ← getitem (soup_find soup "link" (Some ("rel", "canonical"))) "href";
     mret (id_of_link canonical_link)) TypeError "";
  books_shelved ← try_except
    (title ← get_text (soup_find soup "title" None);
     g ← group1 (re_search (count_pattern +:+ "\s+books") title);
     mret (remove_char "," g)) AttributeError "";
  books_read ← count_in ("read\s*\(.*?" +:+ count_pattern +:+ "\)") (soup_text soup);
  currently_reading_count ←
    count_in ("currently-reading&lrm;\s*\(" +:+ count_pattern +:+ "\)") (soup_text soup);
  to_read_count ←
    count_in ("to-read&lrm;\s*\(" +:+ count_pattern +:+ "\)") (soup_text soup);
  full_name ← meta_content soup "og:title";
  first_name ← meta_content soup "profile:first_name";
  last_name ← meta_content soup "profile:last_name";
  username ← meta_content soup "profile:username";
  friends ← try_except (group1 (re_search " Friends \((\d+)\)" (soup_text soup)))
                       AttributeError "";
  mret ({[ "user_id" := user_id;
           "full_name" := full_name;
           "first_name" := first_name;
           "last_name" := last_name;
           "username" := username;
           "books_shelved" := books_shelved;
           "number_of_friends" := friends;
           "books_read" := books_read;
           "currently_reading_count" := currently_reading_count;
           "to_read_count" := to_read_count ]} : gmap string string).

Definition fields : gset string :=
  {[ "user_id"; "full_name"; "first_name"; "last_name"; "username";
     "books_shelved"; "number_of_friends"; "books_read";
     "currently_reading_count"; "to_read_count" ]}.
End Scraper.

(** Every element the scraper finds for an attribute lookup carries that
    attribute. *)
Definition attributes_present (soup : BeautifulSoup) : Prop :=
  (∀ t, soup_find soup "link" (Some ("rel", "canonical")) = Some t →
        is_Some (tag_attrs t !! "href")) ∧
  (∀ property t, soup_find soup "meta" (Some ("property", property)) = Some t →
        is_Some (tag_attrs t !! "content")).

End Profile.

(** ** Sample data *)

Module Samples.
Import PyStr.

Definition month_names : list string :=
  ["January"; "February"; "March"; "April"; "May"; "June"; "July"; "August";
   "September"; "October"; "November"; "December"].

Definition month_number (name : string) : option Z :=
  (λ i, Z.of_nat (S i.1)) <$> list_find (λ m, m = name) month_names.

(** A small date reader for texts of the shape [Month D, YYYY]; everything
    else is unreadable to it. *)
Definition read_date (s : string) : option Timestamp :=
  match split s with
  | [m; d; y] =>
      mo ← month_number m;
      dd ← Parser.to_numeric (Some (remove_char "," d));
      yy ← Parser.to_numeric (Some y);
      Some {| year := Z.of_N yy; month := mo; day := Z.of_N dd |}
  | _ => None
  end.

Definition a_book (name : string) (id : option string) : Book :=
  {| title := name; author := "Anon"; pages := None; avg_goodreads_rating := None;
     total_goodreads_ratings := None; pub := None; user_rating := None;
     read := false; date_read := None; date_added := None; goodreads_id := id |}.

(** A shelf of three books on two pages; every later page is empty. *)
Definition shelf (user_id page_num : Z) : list Book :=
  if decide (page_num = 1) then [a_book "Dune" (Some "234225"); a_book "Emma" (Some "6969")]
  else if decide (page_num = 2) then [a_book "Ulysses" (Some "338798")]
  else [].

Definition some_books : list Book :=
  [a_book "Dune" (Some "234225"); a_book "Emma" (Some "6969"); a_book "Dune" (Some "234225")].

Definition some_genres : list Genre :=
  [{| external_id := Some "234225"; tags := ["Science fiction"] |};
   {| external_id := Some "234225"; tags := ["Classics"; "Fiction"] |}].

Definition unique_genres : list Genre :=
  [{| external_id := Some "234225"; tags := ["Science fiction"] |}].

(** A profile page whose [og:title] element has no [content] attribute. *)
Definition page_without_content : Profile.BeautifulSoup :=
  {| Profile.soup_tags :=
       [{| Profile.tag_name := "title"; Profile.tag_attrs := ∅;
           Profile.tag_text := "Ben (benw) - 12 books" |};
        {| Profile.tag_name := "meta";
           Profile.tag_attrs := {[ "property" := "og:title" ]};
           Profile.tag_text := "" |}];
     Profile.soup_text := "Ben (benw) - 12 books" |}.

(** A profile page without any of the elements the scraper looks for. *)
Definition empty_page : Profile.BeautifulSoup :=
  {| Profile.soup_tags := []; Profile.soup_text := "" |}.

(** A stand-in for [re.search] that never finds a match. *)
Definition no_match (pattern text : string) : option string := None.

End Samples.

(** ** More of the book list parser *)

Module Columns.
Import PyStr Parser.

(** [user_books['title'].apply(lambda x: x[1]).str.extract(r'(\d+)')]: the
    leftmost run of digits of the title link; a cell without link has none. *)
Definition goodreads_id_of (link : option string) : option string :=
  link ≫= extract_digits.

(** [pd.to_numeric(user_books['pages'].str.extract(r'(\d+)')[0], errors='coerce')] *)
Definition pages_of (cell : option string) : option N :=
  to_numeric (cell ≫= extract_digits).

(** [pd.to_numeric(user_books['ratings'].str.replace(',', '')
    .str.extract(r'(\d+)')[0], errors='coerce')] *)
Definition total_ratings_of (cell : option string) : option N :=
  to_numeric ((remove_char "," <$> cell) ≫= extract_digits).

(** Some digit of [s] is not the digit zero. *)
Definition has_nonzero (s : string) : bool :=
  negb (all_chars (λ c, Ascii.eqb c "0") s).

(** [s] is made of digits and commas. *)
Definition digits_and_commas (s : string) : bool :=
  all_chars (λ c, is_digit c || Ascii.eqb c ",") s.

Fixpoint last_char (s : string) : option ascii :=
  match s with
  | EmptyString => None
  | String c s' =>
      match last_char s' with
      | Some d => Some d
      | None => Some c
      end
  end.

(** [s] does not end with whitespace. *)
Definition ends_clean (s : string) : Prop :=
  match last_char s with
  | Some c => is_space c = false
  | None => True
  end.

(** [s] has whitespace at neither end. *)
Definition trimmed (s : string) : Prop := starts_clean s ∧ ends_clean s.

(** A run of whitespace. *)
Definition all_space (s : string) : bool := all_chars is_space s.

End Columns.

(** ** Genre fetcher: [get_genres_from_hardcover] *)

Module Genres.
Import PyStr.

Local Unset Elimination Schemes.

(** A decoded JSON value, as [response.json()] returns it. *)
Inductive json : Type :=
| JNull
| JBool (b : bool)
| JNum (n : Z)
| JStr (s : string)
| JList (l : list json)
| JDict (d : gmap string json).

Local Set Elimination Schemes.

(** [x[key]] for a text key: only a [dict] can be subscripted with one, and
    it must hold the key. *)
Definition getitem (x : json) (key : string) : result json :=
  match x with
  | JDict d =>
      match d !! key with
      | Some v => Return v
      | None => Raise KeyError
      end
  | _ => Raise TypeError
  end.

Fixpoint chars (s : string) : list string :=
  match s with
  | EmptyString => []
  | String c s' => String c EmptyString :: chars s'
  end.

(** [for item in x]: a list gives its items, a [dict] its keys, a [str] its
    characters; nothing else can be iterated. *)
Definition iterate (x : json) : result (list json) :=
  match x with
  | JList l => Return l
  | JDict d => Return (JStr <$> (map_to_list d).*1)
  | JStr s => Return (JStr <$> chars s)
  | _ => Raise TypeError
  end.

(** A loop or comprehension whose body may raise: the items in order, up to
    the first exception. *)
Fixpoint traverse {A B} (f : A → result B) (l : list A) : result (list B) :=
  match l with
  | [] => Return []
  | x :: l' => y ← f x; ys ← traverse f l'; mret (y :: ys)
  end.

(** A row of [flattened_data]. *)
Record GenreRow : Type := {
  row_external_id : json;
  row_tags : list json
}.

(** [tag['tag']['tag']] *)
Definition tag_of (tag : json) : result json :=
  t ← getitem tag "tag"; getitem t "tag".

(** The body of [for entry in books_json]. *)
Definition flatten_entry (entry : json) : result GenreRow :=
  book_id ← getitem entry "external_id";
  book ← getitem entry "book";
  taggings ← getitem book "taggings";
  items ← iterate taggings;
  tags ← traverse tag_of items;
  mret {| row_external_id := book_id; row_tags := tags |}.

(** From [response['data']['book_mappings']] to [flattened_data]. *)
Definition flatten_response (response : json) : result (list GenreRow) :=
  data ← getitem response "data";
  books_json ← getitem data "book_mappings";
  entries ← iterate books_json;
  traverse flatten_entry entries.

Definition quote : string := String "034" EmptyString.

(** [sep.join(items)] *)
Fixpoint join (sep : string) (items : list string) : string :=
  match items with
  | [] => EmptyString
  | [x] => x
  | x :: rest => x +:+ sep +:+ join sep rest
  end.

(** [f'{id_}'] for a cell of the id column: text as it is, [NaN] as [nan]. *)
Definition format_id (id_ : option string) : string := default "nan" id_.

(** [', '.join(f'"{id_}"' for id_ in goodreads_ids)] *)
Definition ids_string (goodreads_ids : list (option string)) : string :=
  join ", " ((λ id_, quote +:+ format_id id_ +:+ quote) <$> goodreads_ids).

Section Fetch.
(** The metadata service: the decoded response to the query that asks for
    the identifiers listed in the given text. *)
Variable post_query : string → json.

Definition get_genres_from_hardcover
    (goodreads_ids : list (option string)) : result (list GenreRow) :=
  flatten_response (post_query (ids_string goodreads_ids)).
End Fetch.

(** The response that lists the given genre rows. *)
Definition encode_id (x : option string) : json :=
  match x with
  | Some s => JStr s
  | None => JNull
  end.

Definition encode_tag (name : string) : json :=
  JDict {[ "tag" := JDict {[ "tag" := JStr name ]} ]}.

Definition encode_entry (g : Genre) : json :=
  JDict {[ "external_id" := encode_id (external_id g);
           "book" := JDict {[ "taggings" := JList (encode_tag <$> tags g) ]} ]}.

Definition encode_response (genres : list Genre) : json :=
  JDict {[ "data" := JDict {[ "book_mappings" := JList (encode_entry <$> genres) ]} ]}.

Definition row_of (g : Genre) : GenreRow :=
  {| row_external_id := encode_id (external_id g); row_tags := JStr <$> tags g |}.

(** The characters an identifier list built from parsed links can hold. *)
Definition id_list_char (c : ascii) : bool :=
  is_digit c || bool_decide (c ∈ ["034"; ","; " "; "n"; "a"]%char).

End Genres.

(** ** The attribute lookups of the profile scraper *)

Module Lookups.
Import PyStr Profile.

(** The element [soup.find(name, attrs)] returns, if any, has the attribute
    [key]. *)
Definition has_attribute (soup : BeautifulSoup) (name : string)
    (attrs : option (string * string)) (key : string) : Prop :=
  ∀ t, soup_find soup name attrs = Some t → is_Some (tag_attrs t !! key).

(** The five subscripts of [get_user_info] find their attribute. *)
Definition lookups_succeed (soup : BeautifulSoup) : Prop :=
  has_attribute soup "link" (Some ("rel", "canonical")) "href" ∧
  has_attribute soup "meta" (Some ("property", "og:title")) "content" ∧
  has_attribute soup "meta" (Some ("property", "profile:first_name")) "content" ∧
  has_attribute soup "meta" (Some ("property", "profile:last_name")) "content" ∧
  has_attribute soup "meta" (Some ("property", "profile:username")) "content".

(** The character [c] does not occur in [s]. *)
Definition without (c : ascii) (s : string) : bool :=
  all_chars (λ a, negb (Ascii.eqb a c)) s.

End Lookups.

(** ** The rating and publication patterns *)

Module Patterns.
Import PyStr Parser.

(** [\d+\.\d+] with its left end here: the whole run of digits, a point,
    and the whole run of digits after it. *)
Definition decimal_at (s : string) : option string :=
  let whole := digit_run s in
  match whole, drop (String.length whole) s with
  | String _ _, String c rest =>
      if Ascii.eqb c "." then
        match digit_run rest with
        | EmptyString => None
        | frac => Some (whole +:+ "." +:+ frac)
        end
      else None
  | _, _ => None
  end.

(** [.str.extract(r'(\d+\.\d+)')[0]]: the leftmost match. *)
Fixpoint decimal_search (s : string) : option string :=
  match decimal_at s with
  | Some g => Some g
  | None =>
      match s with
      | EmptyString => None
      | String _ s' => decimal_search s'
      end
  end.

(** The text that [pd.to_numeric] turns into [avg_goodreads_rating]. *)
Definition rating_text_of (cell : option string) : option string :=
  cell ≫= decimal_search.

(** [\w], on ASCII text. *)
Definition is_word_char (c : ascii) : bool :=
  let n := N_of_ascii c in
  (is_digit c || (65 <=? n) && (n <=? 90) || (97 <=? n) && (n <=? 122) || (n =? 95))%N.

Definition word_at (s : string) : bool :=
  match s with
  | EmptyString => false
  | String c _ => is_word_char c
  end.

(** [\b] between the character [prev] (if any) and the text [s]. *)
Definition boundary (prev : option ascii) (s : string) : bool :=
  xorb (from_option is_word_char false prev) (word_at s).

(** [s[:n]] *)
Fixpoint take (n : nat) (s : string) : string :=
  match n, s with
  | S n', String c s' => String c (take n' s')
  | _, _ => EmptyString
  end.

(** The first [n] characters of [s] are digits. *)
Definition digits_here (n : nat) (s : string) : bool :=
  (n <=? String.length (digit_run s))%nat.

(** The first outcome in the order the matcher tries the alternatives. *)
Fixpoint first_success {A} (attempt : nat → option A) (counts : list nat) : option A :=
  match counts with
  | [] => None
  | n :: rest =>
      match attempt n with
      | Some a => Some a
      | None => first_success attempt rest
      end
  end.

(** [(\d{1,4})\b] with [m] digits. *)
Definition year_attempt (s : string) (m : nat) : option string :=
  if digits_here m s && negb (word_at (drop m s)) then Some (take m s) else None.

(** [(\d{1,4})\b] here: four digits if that ends at a word boundary, else
    three, two, one. *)
Definition year_at (s : string) : option string :=
  first_success (year_attempt s) [4; 3; 2; 1]%nat.

(** [,\s] and then the year. *)
Definition comma_space_year (s : string) : option string :=
  match s with
  | String a (String c rest) =>
      if Ascii.eqb a "," && is_space c then year_at rest else None
  | _ => None
  end.

(** [\d{1,2},\s] with [n] digits, and then the year. *)
Definition day_attempt (s : string) (n : nat) : option string :=
  if digits_here n s then comma_space_year (drop n s) else None.

(** [\b\d{1,2},\s] here, with two digits or else one, and then the year. *)
Definition day_then_year_at (prev : option ascii) (s : string) : option string :=
  if boundary prev s then first_success (day_attempt s) [2; 1]%nat else None.

(** The pattern [(?:\b\d{1,2},\s)?(\d{1,4})\b] with its left end here: with
    the optional day first, without it otherwise. *)
Definition pub_at (prev : option ascii) (s : string) : option string :=
  match day_then_year_at prev s with
  | Some y => Some y
  | None => year_at s
  end.

(** [re.search]: the leftmost position at which the pattern matches;
    [prev] is the character before the position. *)
Fixpoint pub_search (prev : option ascii) (s : string) : option string :=
  match pub_at prev s with
  | Some y => Some y
  | None =>
      match s with
      | EmptyString => None
      | String c s' => pub_search (Some c) s'
      end
  end.

(** [x.replace('date pub ', '', 1)], the pattern, and [pd.to_numeric]. *)
Definition pub_of (cell : string) : option N :=
  to_numeric (pub_search None (replace1 "date pub " "" cell)).

(** [s] is made of letters. *)
Definition letters (s : string) : bool :=
  all_chars (λ c, is_word_char c && negb (is_digit c) && negb (Ascii.eqb c "_")) s.

End Patterns.

(** ** More sample data *)

Module MoreSamples.

(** A shelf without end: every page holds one book. *)
Definition endless (user_id page_num : Z) : list Book := [Samples.a_book "Again" None].

(** The shelf of [Samples.shelf] with a book on page 4, behind the empty page 3. *)
Definition shelf_with_gap (user_id page_num : Z) : list Book :=
  if decide (page_num = 4) then [Samples.a_book "Lost" (Some "1")]
  else Samples.shelf user_id page_num.

(** A profile page with the link and the four [meta] elements in place. *)
Definition full_page : Profile.BeautifulSoup :=
  {| Profile.soup_tags :=
       [{| Profile.tag_name := "link";
           Profile.tag_attrs :=
             {[ "rel" := "canonical";
                "href" := "https://www.goodreads.com/user/show/42944663-ben-wallace" ]};
           Profile.tag_text := "" |};
        {| Profile.tag_name := "meta";
           Profile.tag_attrs := {[ "property" := "og:title"; "content" := "Ben Wallace" ]};
           Profile.tag_text := "" |}];
     Profile.soup_text := "Ben's Friends (12)" |}.

(** A stand-in for [re.search] that reads a count with a separator. *)
Definition finds_count (pattern text : string) : option string := Some "1,234".

(** A service that answers every query with the rows of [Samples.some_genres]. *)
Definition service (ids : string) : Genres.json :=
  Genres.encode_response Samples.some_genres.

(** A service that answers with a GraphQL error document. *)
Definition failing_service (ids : string) : Genres.json :=
  Genres.JDict {[ "errors" := Genres.JList [Genres.JStr "invalid token"] ]}.

End MoreSamples.

(** * Properties *)

(** ** The embedding on concrete cells *)

Module Checks.
Import PyStr Parser Dates.

Example split_words_of_text : split "  March   2020 " = ["March"; "2020"].
Proof. reflexivity. Qed.

Example strip_both_ends : strip "  a b  " = "a b".
Proof. reflexivity. Qed.

Example replace1_is_leftmost : replace1 " *" "" "a *b *" = "ab *".
Proof. reflexivity. Qed.

Example title_cell : parse_title "title The Hobbit" = "The Hobbit".
Proof. reflexivity. Qed.

Example author_cell : parse_author "author Tolkien, J.R.R. *" = "Tolkien, J.R.R.".
Proof. reflexivity. Qed.

Example rating_cell : Parser.user_rating (Some "Ben's rating really liked it") = Some 4.
Proof. reflexivity. Qed.

Example rating_cell_unrated : Parser.user_rating (Some "Ben's rating") = None.
Proof. reflexivity. Qed.

Example rating_cell_second_line :
  rating_search ("x" +:+ String "010" "Ben's rating liked it") = Some "liked it".
Proof. reflexivity. Qed.

Example rating_cell_two_lines_after :
  rating_search ("Ben's rating liked" +:+ String "010" "it") = None.
Proof. reflexivity. Qed.

Example votes_cell : votes_count (Some "# times read 12") = Some 12%N.
Proof. reflexivity. Qed.

Example votes_cell_leftmost_run : votes_count (Some "3 # times read 0") = Some 3%N.
Proof. reflexivity. Qed.

Example date_cells :
  format_and_convert_date Samples.read_date
    [Some "date read March 2020"; Some "date read not set"; Some "date read March 3, 2020";
     Some "date read someday"; Some "no label"; None] "date read" =
    [Some {| year := 2020; month := 3; day := 1 |}; None;
     Some {| year := 2020; month := 3; day := 3 |}; None; None; None].
Proof. reflexivity. Qed.

Example link_to_id :
  Profile.id_of_link "https://www.goodreads.com/user/show/42944663-ben-wallace" = "42944663".
Proof. reflexivity. Qed.

Example merge_of_samples :
  Merger.combine_goodreads_and_hardcover
    (Frame Samples.some_books) (pd_DataFrame Samples.unique_genres) =
    Return
      [Merger.matched (Samples.a_book "Dune" (Some "234225"))
         {| external_id := Some "234225"; tags := ["Science fiction"] |};
       Merger.unmatched (Samples.a_book "Emma" (Some "6969"));
       Merger.matched (Samples.a_book "Dune" (Some "234225"))
         {| external_id := Some "234225"; tags := ["Science fiction"] |}].
Proof. reflexivity. Qed.

Example merge_without_columns :
  Merger.combine_goodreads_and_hardcover (Frame Samples.some_books) (pd_DataFrame []) =
    Raise KeyError ∧
  Merger.combine_goodreads_and_hardcover NoColumns (pd_DataFrame Samples.unique_genres) =
    Raise KeyError.
Proof. split; reflexivity. Qed.

(** A response without mappings gives no record, so [pd.DataFrame] is
    called on the empty list. *)
Example no_mapping_gives_no_record :
  Genres.get_genres_from_hardcover (λ _, Genres.encode_response []) [Some "6969"] = Return [].
Proof. vm_compute. reflexivity. Qed.

Example shelf_in_three_passes :
  Pagination.run Samples.shelf 3 7 =
    Some {| Pagination.page_num := 3;
            Pagination.all_books_df :=
              [Samples.a_book "Dune" (Some "234225"); Samples.a_book "Emma" (Some "6969");
               Samples.a_book "Ulysses" (Some "338798")];
            Pagination.requested := [1; 2; 3] |}.
Proof. reflexivity. Qed.

(** A page with nothing on it gives the record of ten empty fields. *)
Example profile_of_empty_page :
  Profile.get_user_info Samples.no_match Samples.empty_page =
    Return (gset_to_gmap "" Profile.fields).
Proof. vm_compute. reflexivity. Qed.

End Checks.

(** ** Facts about the string primitives *)

Module PyStrFacts.
Import PyStr.

Lemma app_cons c s t : String c s +:+ t = String c (s +:+ t).
Proof. reflexivity. Qed.

Lemma app_empty_l t : "" +:+ t = t.
Proof. reflexivity. Qed.

Lemma app_empty_r s : s +:+ "" = s.
Proof. induction s as [|c s IH]; [done|]. by rewrite app_cons, IH. Qed.

Lemma app_assoc s t u : (s +:+ t) +:+ u = s +:+ t +:+ u.
Proof. induction s as [|c s IH]; [done|]. by rewrite !app_cons, IH. Qed.

Lemma length_app s t : String.length (s +:+ t) = (String.length s + String.length t)%nat.
Proof. induction s as [|c s IH]; [done|]. rewrite app_cons. simpl. by rewrite IH. Qed.

Lemma startswith_app p s : startswith p (p +:+ s) = true.
Proof.
  induction p as [|c p IH]; [done|].
  rewrite app_cons. simpl. by rewrite Ascii.eqb_refl, IH.
Qed.

Lemma drop_app p s : drop (String.length p) (p +:+ s) = s.
Proof. induction p as [|c p IH]; [by destruct s|]. by rewrite app_cons. Qed.

(** A prefix of [s +:+ x] no longer than [s] is a prefix of [s]. *)
Lemma startswith_shorter p s x :
  startswith p (s +:+ x) = true → (String.length p ≤ String.length s)%nat →
  startswith p s = true.
Proof.
  revert s. induction p as [|c p IH]; intros [|d s]; [done | done | |].
  - simpl. lia.
  - rewrite app_cons. simpl. intros [-> Hp]%andb_prop Hlen.
    rewrite (IH s Hp); [done | lia].
Qed.

Lemma find_eq sub s :
  find sub s =
    if startswith sub s then Some O
    else match s with
         | EmptyString => None
         | String _ s' => S <$> find sub s'
         end.
Proof. by destruct s. Qed.

Lemma replace1_eq old new s :
  replace1 old new s =
    if startswith old s then new +:+ drop (String.length old) s
    else match s with
         | EmptyString => EmptyString
         | String c s' => String c (replace1 old new s')
         end.
Proof. by destruct s. Qed.

Lemma find_cons_Some sub c s n :
  find sub (String c s) = Some (S n) →
  startswith sub (String c s) = false ∧ find sub s = Some n.
Proof.
  rewrite find_eq. destruct (startswith sub (String c s)); [done|].
  destruct (find sub s); simpl; intros; simplify_eq; done.
Qed.

Lemma find_None_cons sub c s :
  find sub (String c s) = None →
  startswith sub (String c s) = false ∧ find sub s = None.
Proof.
  rewrite find_eq. destruct (startswith sub (String c s)); [done|].
  by destruct (find sub s).
Qed.

(** [replace(old, new, 1)] rewrites the leftmost occurrence and nothing
    after it. *)
Lemma replace1_first old new pre post :
  find old (pre +:+ old) = Some (String.length pre) →
  replace1 old new (pre +:+ old +:+ post) = pre +:+ new +:+ post.
Proof.
  induction pre as [|c pre IH]; intros Hfind.
  - rewrite !app_empty_l, replace1_eq.
    by rewrite startswith_app, drop_app.
  - rewrite !app_cons in *. simpl in Hfind.
    apply find_cons_Some in Hfind as [Hno Hfind].
    rewrite replace1_eq.
    destruct (startswith old (String c (pre +:+ old +:+ post))) eqn:Hsw.
    + rewrite <- app_cons, <- app_assoc in Hsw.
      apply startswith_shorter in Hsw; [rewrite app_cons in Hsw; congruence|].
      rewrite app_cons. simpl. rewrite length_app. lia.
    + by rewrite IH.
Qed.

Lemma replace1_prefix old new post : replace1 old new (old +:+ post) = new +:+ post.
Proof. by rewrite replace1_eq, startswith_app, drop_app. Qed.

Lemma replace1_absent old new s : find old s = None → replace1 old new s = s.
Proof.
  induction s as [|c s IH]; intros Hfind.
  - rewrite find_eq in Hfind. rewrite replace1_eq.
    by destruct (startswith old "").
  - apply find_None_cons in Hfind as [Hno Hfind].
    rewrite replace1_eq. by rewrite Hno, IH.
Qed.

(** The same, with the leftmost occurrence located in the whole string. *)
Lemma replace1_leftmost old new pre post :
  find old (pre +:+ old +:+ post) = Some (String.length pre) →
  replace1 old new (pre +:+ old +:+ post) = pre +:+ new +:+ post.
Proof.
  induction pre as [|c pre IH]; intros Hfind.
  - rewrite !app_empty_l. apply replace1_prefix.
  - rewrite !app_cons in *. cbn [String.length] in Hfind.
    apply find_cons_Some in Hfind as [Hno Hfind].
    rewrite replace1_eq, Hno. by rewrite IH.
Qed.

Lemma startswith_split p s : startswith p s = true → s = p +:+ drop (String.length p) s.
Proof.
  revert s. induction p as [|c p IH]; intros [|d s]; [done | done | done |].
  simpl. intros [->%Ascii.eqb_eq Hp]%andb_prop.
  rewrite app_cons. f_equal. by apply IH.
Qed.

(** Where [find] answers [i], the string splits at [i] around the
    occurrence. *)
Lemma find_Some_split old s i :
  find old s = Some i →
  ∃ pre post, s = pre +:+ old +:+ post ∧ String.length pre = i.
Proof.
  revert i. induction s as [|c s IH]; intros i; rewrite find_eq.
  - destruct (startswith old "") eqn:Hsw; [|done]. intros [= <-].
    exists "", (drop (String.length old) ""). split; [|done].
    rewrite app_empty_l. by apply startswith_split.
  - destruct (startswith old (String c s)) eqn:Hsw.
    + intros [= <-]. exists "", (drop (String.length old) (String c s)). split; [|done].
      rewrite app_empty_l. by apply startswith_split.
    + destruct (find old s) as [n|] eqn:Hfind; [|done]. simpl. intros [= <-].
      destruct (IH n eq_refl) as (pre & post & -> & <-).
      by exists (String c pre), post.
Qed.

(** *** [strip] *)

Lemma lstrip_starts_clean s : starts_clean (lstrip s).
Proof. induction s as [|c s IH]; [done|]. simpl. by destruct (is_space c) eqn:?. Qed.

Lemma lstrip_clean s : starts_clean s → lstrip s = s.
Proof. destruct s as [|c s]; [done|]. simpl. by intros ->. Qed.

Lemma rstrip_starts_clean s : starts_clean s → starts_clean (rstrip s).
Proof.
  destruct s as [|c s]; [done|]. simpl. intros Hc.
  destruct (rstrip s); [by rewrite Hc|done].
Qed.

Lemma rstrip_idem s : rstrip (rstrip s) = rstrip s.
Proof.
  induction s as [|c s IH]; [done|]. simpl.
  destruct (rstrip s) as [|d r] eqn:Hr.
  - destruct (is_space c) eqn:Hc; [done|]. simpl. by rewrite Hc.
  - simpl in *. by rewrite IH.
Qed.

Lemma strip_starts_clean s : starts_clean (strip s).
Proof. apply rstrip_starts_clean, lstrip_starts_clean. Qed.

Lemma strip_idem s : strip (strip s) = strip s.
Proof.
  unfold strip at 1. rewrite lstrip_clean by apply strip_starts_clean.
  unfold strip. apply rstrip_idem.
Qed.

(** *** [split] *)

Lemma split_aux_app_word w r :
  no_space w = true →
  split_aux (w +:+ r) = (w +:+ (split_aux r).1, (split_aux r).2).
Proof.
  induction w as [|c w IH]; intros Hw.
  - rewrite !app_empty_l. by destruct (split_aux r).
  - apply andb_prop in Hw as [Hc Hw]. rewrite !app_cons. simpl.
    rewrite (IH Hw). apply negb_true_iff in Hc. by rewrite Hc.
Qed.

Lemma cons_word_words w ws :
  no_space w = true → Forall is_word ws → Forall is_word (cons_word w ws).
Proof.
  intros Hw Hws. destruct w as [|c w]; [done|].
  simpl. constructor; [|done]. by split.
Qed.

Lemma split_aux_words s :
  no_space (split_aux s).1 = true ∧ Forall is_word (split_aux s).2.
Proof.
  induction s as [|c s [IHw IHws]]; [by split|].
  simpl. destruct (split_aux s) as [w ws]. simpl in *.
  destruct (is_space c) eqn:Hc; simpl.
  - split; [done|]. by apply cons_word_words.
  - split; [|done]. unfold no_space in *. simpl. by rewrite Hc, IHw.
Qed.

Lemma split_words s : Forall is_word (split s).
Proof.
  unfold split. pose proof (split_aux_words s) as [Hw Hws].
  destruct (split_aux s) as [w ws]. by apply cons_word_words.
Qed.

Lemma split_space c r : is_space c = true → split (String c r) = split r.
Proof.
  intros Hc. unfold split. simpl. destruct (split_aux r) as [w ws].
  by rewrite Hc.
Qed.

Lemma split_word_app w r :
  is_word w → split (w +:+ r) = cons_word (w +:+ (split_aux r).1) (split_aux r).2.
Proof. intros [_ Hw]. unfold split. by rewrite split_aux_app_word. Qed.

(** A word followed by whitespace is the first word of the text. *)
Lemma split_word_space w c r :
  is_word w → is_space c = true → split (w +:+ String c r) = w :: split r.
Proof.
  intros Hw Hc. rewrite split_word_app by done. simpl.
  unfold split. destruct (split_aux r) as [w' ws]. rewrite Hc. simpl.
  rewrite app_empty_r. destruct Hw as [Hne _]. by destruct w.
Qed.

Lemma split_word w : is_word w → split w = [w].
Proof.
  intros Hw. rewrite <- (app_empty_r w) at 1. rewrite split_word_app by done.
  simpl. rewrite app_empty_r. destruct Hw as [Hne _]. by destruct w.
Qed.

(** The text [p0 1, p1] built from two words has three. *)
Lemma split_default_day p0 p1 :
  is_word p0 → is_word p1 → split (p0 +:+ " 1, " +:+ p1) = [p0; "1,"; p1].
Proof.
  intros H0 H1.
  change (" 1, " +:+ p1) with (String " " ("1," +:+ String " " p1)).
  rewrite (split_word_space p0) by done.
  rewrite (split_word_space "1,") by done.
  by rewrite split_word.
Qed.

End PyStrFacts.

(** ** Inbound authentication *)

(** C9.  Whatever the configured secret and the supplied header are,
    [get_api_key] returns the supplied key when it equals the secret, and
    otherwise raises the one error it has: an HTTP 401 carrying the message
    "401: Invalid API Key".  There is no third outcome. *)
Theorem get_api_key_outcomes (BOOKBLEND_API_KEY : option string) (api_key_header : string) :
  (BOOKBLEND_API_KEY = Some api_key_header →
     get_api_key BOOKBLEND_API_KEY api_key_header = Return api_key_header) ∧
  (BOOKBLEND_API_KEY ≠ Some api_key_header →
     get_api_key BOOKBLEND_API_KEY api_key_header =
       Raise (HTTPException 401 "401: Invalid API Key")) ∧
  (get_api_key BOOKBLEND_API_KEY api_key_header = Return api_key_header ∨
   get_api_key BOOKBLEND_API_KEY api_key_header =
     Raise (HTTPException 401 "401: Invalid API Key")).
Proof.
  unfold get_api_key, HTTP_401_UNAUTHORIZED.
  destruct (decide (Some api_key_header = BOOKBLEND_API_KEY)) as [Heq|Hne].
  - split_and!; [done | congruence | by left].
  - split_and!; [congruence | done | by right].
Qed.

Lemma get_api_key_outcomes_witness :
  get_api_key (Some "s3cret") "s3cret" = Return "s3cret" ∧
  get_api_key (Some "s3cret") "guess" = Raise (HTTPException 401 "401: Invalid API Key").
Proof.
  split.
  - apply (get_api_key_outcomes (Some "s3cret") "s3cret"). reflexivity.
  - apply (get_api_key_outcomes (Some "s3cret") "guess"). discriminate.
Defined.

(** C10.  With [BOOKBLEND_API_KEY] unset the configured secret is [None],
    and [get_api_key] raises the 401 error for every header string: no key
    is accepted, the empty one included. *)
Theorem get_api_key_unset_rejects_every_key (api_key_header : string) :
  get_api_key None api_key_header = Raise (HTTPException 401 "401: Invalid API Key").
Proof. reflexivity. Qed.

(** ** Title and author cells *)

Module ParserFacts.
Import PyStr PyStrFacts Parser.

Lemma parse_title_leftmost pre post :
  find "title " (pre +:+ "title ") = Some (String.length pre) →
  parse_title (pre +:+ "title " +:+ post) = strip (pre +:+ post).
Proof. intros H. unfold parse_title. by rewrite replace1_first. Qed.

Lemma parse_author_marker name post :
  find " *" (name +:+ " *") = Some (String.length name) →
  parse_author ("author " +:+ name +:+ " *" +:+ post) = strip (name +:+ post).
Proof.
  intros H. unfold parse_author.
  rewrite replace1_prefix, app_empty_l. by rewrite replace1_first.
Qed.

(** The author cell in general: [a] is the cell after the first
    replacement, which the second replacement then reads. *)
Lemma parse_author_plain cell :
  find "author " cell = None → find " *" cell = None → parse_author cell = strip cell.
Proof. intros H1 H2. unfold parse_author. by rewrite (replace1_absent _ _ _ H1), replace1_absent. Qed.

Lemma parse_author_only_marker pre post :
  find "author " (pre +:+ " *" +:+ post) = None →
  find " *" (pre +:+ " *" +:+ post) = Some (String.length pre) →
  parse_author (pre +:+ " *" +:+ post) = strip (pre +:+ post).
Proof.
  intros H1 H2. unfold parse_author.
  by rewrite (replace1_absent _ _ _ H1), replace1_leftmost, app_empty_l.
Qed.

Lemma parse_author_only_label pre post :
  find "author " (pre +:+ "author " +:+ post) = Some (String.length pre) →
  find " *" (pre +:+ post) = None →
  parse_author (pre +:+ "author " +:+ post) = strip (pre +:+ post).
Proof.
  intros H1 H2. unfold parse_author.
  by rewrite replace1_leftmost, app_empty_l, replace1_absent.
Qed.

Lemma parse_author_label_and_marker pre post pre' post' :
  find "author " (pre +:+ "author " +:+ post) = Some (String.length pre) →
  pre +:+ post = pre' +:+ " *" +:+ post' →
  find " *" (pre' +:+ " *" +:+ post') = Some (String.length pre') →
  parse_author (pre +:+ "author " +:+ post) = strip (pre' +:+ post').
Proof.
  intros H1 Heq H2. unfold parse_author.
  rewrite replace1_leftmost, app_empty_l by done.
  by rewrite Heq, replace1_leftmost, app_empty_l.
Qed.

End ParserFacts.

(** C7, as amended.  The parser removes the leftmost occurrence of
    "title " from a title cell, and the leftmost occurrence of "author " and
    then the leftmost occurrence of " *" from an author cell, and trims the
    whitespace at both ends.  So a cell that begins with "title " loses that
    prefix and keeps every later "title "; an author cell that begins with
    "author " loses that prefix, and loses its " *" marker where no " *"
    stands before it; whatever follows the removed occurrence is unchanged.
    For every author cell, wherever "author " stands in it: the cell has no
    "author " or splits around the leftmost one, what is left has no " *" or
    splits around the leftmost one, and the result is what remains,
    trimmed.  These cases leave no cell out, since an occurrence that [find]
    reports splits the cell at the reported index. *)
Theorem parse_title_author_leftmost :
  (∀ rest, Parser.parse_title ("title " +:+ rest) = PyStr.strip rest) ∧
  (∀ cell, PyStr.find "title " cell = None → Parser.parse_title cell = PyStr.strip cell) ∧
  (∀ pre post, PyStr.find "title " (pre +:+ "title ") = Some (String.length pre) →
     Parser.parse_title (pre +:+ "title " +:+ post) = PyStr.strip (pre +:+ post)) ∧
  (∀ name post, PyStr.find " *" (name +:+ " *") = Some (String.length name) →
     Parser.parse_author ("author " +:+ name +:+ " *" +:+ post) = PyStr.strip (name +:+ post)) ∧
  (∀ name, PyStr.find " *" name = None →
     Parser.parse_author ("author " +:+ name) = PyStr.strip name) ∧
  (∀ pre post, PyStr.find "title " (pre +:+ "title " +:+ post) = Some (String.length pre) →
     Parser.parse_title (pre +:+ "title " +:+ post) = PyStr.strip (pre +:+ post)) ∧
  (∀ cell, PyStr.find "author " cell = None → PyStr.find " *" cell = None →
     Parser.parse_author cell = PyStr.strip cell) ∧
  (∀ pre post, PyStr.find "author " (pre +:+ " *" +:+ post) = None →
     PyStr.find " *" (pre +:+ " *" +:+ post) = Some (String.length pre) →
     Parser.parse_author (pre +:+ " *" +:+ post) = PyStr.strip (pre +:+ post)) ∧
  (∀ pre post,
     PyStr.find "author " (pre +:+ "author " +:+ post) = Some (String.length pre) →
     PyStr.find " *" (pre +:+ post) = None →
     Parser.parse_author (pre +:+ "author " +:+ post) = PyStr.strip (pre +:+ post)) ∧
  (∀ pre post pre' post',
     PyStr.find "author " (pre +:+ "author " +:+ post) = Some (String.length pre) →
     pre +:+ post = pre' +:+ " *" +:+ post' →
     PyStr.find " *" (pre' +:+ " *" +:+ post') = Some (String.length pre') →
     Parser.parse_author (pre +:+ "author " +:+ post) = PyStr.strip (pre' +:+ post')) ∧
  (∀ old cell i, PyStr.find old cell = Some i →
     ∃ pre post, cell = pre +:+ old +:+ post ∧ String.length pre = i).
Proof.
  split_and!.
  - intros rest. by apply (ParserFacts.parse_title_leftmost "" rest).
  - intros cell H. unfold Parser.parse_title. by rewrite PyStrFacts.replace1_absent.
  - apply ParserFacts.parse_title_leftmost.
  - apply ParserFacts.parse_author_marker.
  - intros name H. unfold Parser.parse_author.
    rewrite PyStrFacts.replace1_prefix, PyStrFacts.app_empty_l.
    by rewrite PyStrFacts.replace1_absent.
  - intros pre post H. unfold Parser.parse_title.
    by rewrite PyStrFacts.replace1_leftmost, PyStrFacts.app_empty_l.
  - apply ParserFacts.parse_author_plain.
  - apply ParserFacts.parse_author_only_marker.
  - apply ParserFacts.parse_author_only_label.
  - apply ParserFacts.parse_author_label_and_marker.
  - apply PyStrFacts.find_Some_split.
Qed.

Lemma parse_title_author_leftmost_witness :
  Parser.parse_title "The Hobbit" = "The Hobbit" ∧
  Parser.parse_title "On title pages" = "On pages" ∧
  Parser.parse_author "author Rowling, J.K. *" = "Rowling, J.K." ∧
  Parser.parse_author "author Homer" = "Homer" ∧
  Parser.parse_title "A title for a title " = "A for a title" ∧
  Parser.parse_author "Homer" = "Homer" ∧
  Parser.parse_author "Rowling, J.K. *" = "Rowling, J.K." ∧
  Parser.parse_author "Co-author Homer" = "Co-Homer" ∧
  Parser.parse_author "author Jo *Ann *" = "JoAnn *" ∧
  (∃ pre post, "Co-author Homer" = pre +:+ "author " +:+ post ∧ String.length pre = 3%nat).
Proof.
  destruct parse_title_author_leftmost
    as (_ & Habsent & Hleft & Hmarker & Hplain & Htitle & Hnone & Hstar & Hlabel & Hboth & Hsplit).
  split_and!.
  - exact (Habsent "The Hobbit" eq_refl).
  - exact (Hleft "On " "pages" eq_refl).
  - exact (Hmarker "Rowling, J.K." "" eq_refl).
  - exact (Hplain "Homer" eq_refl).
  - exact (Htitle "A " "for a title " eq_refl).
  - exact (Hnone "Homer" eq_refl eq_refl).
  - exact (Hstar "Rowling, J.K." "" eq_refl eq_refl).
  - exact (Hlabel "Co-" "Homer" eq_refl eq_refl).
  - exact (Hboth "" "Jo *Ann *" "Jo" "Ann *" eq_refl eq_refl eq_refl).
  - exact (Hsplit "author " "Co-author Homer" 3%nat eq_refl).
Defined.

(** C7, as stated, fails: in an author cell with " *" both inside the name
    and at its end, the one inside is removed and the trailing marker stays. *)
Lemma parse_author_removes_inner_marker :
  Parser.parse_author "author Jo *Ann *" = "JoAnn *" ∧
  Parser.parse_author "author Jo *Ann *" ≠ "Jo *Ann".
Proof. split; [reflexivity | discriminate]. Qed.

(** C8, as stated, fails: parsing the title cell of "The title page" gives
    that title, and parsing this result again removes the "title " inside. *)
Lemma parse_title_twice_differs :
  Parser.parse_title "title The title page" = "The title page" ∧
  Parser.parse_title (Parser.parse_title "title The title page") = "The page" ∧
  Parser.parse_title (Parser.parse_title "title The title page") ≠
    Parser.parse_title "title The title page".
Proof. split_and!; [reflexivity | reflexivity | discriminate]. Qed.

(** ** Date normalizer *)

Module DatesFacts.
Import PyStr PyStrFacts Dates.

Lemma insert_default_day_two s p0 p1 :
  split s = [p0; p1] → insert_default_day (Some s) = Some (p0 +:+ " 1, " +:+ p1).
Proof. unfold insert_default_day. by intros ->. Qed.

Lemma insert_default_day_other s :
  length (split s) ≠ 2%nat → insert_default_day (Some s) = Some s.
Proof.
  unfold insert_default_day.
  destruct (split s) as [|p0 [|p1 [|p2 ps]]]; simpl; done.
Qed.

Lemma replace_not_set_other s : s ≠ "not set" → replace_not_set (Some s) = Some s.
Proof. intros H. unfold replace_not_set. by rewrite decide_False. Qed.

(** The text with the default day inserted has three words: it is not
    the sentinel, and it gets no second default day. *)
Lemma normalize_text_default_day s p0 p1 :
  split s = [p0; p1] →
  normalize_text (Some (p0 +:+ " 1, " +:+ p1)) = Some (p0 +:+ " 1, " +:+ p1).
Proof.
  intros Hs. pose proof (split_words s) as Hw. rewrite Hs in Hw.
  apply Forall_cons in Hw as [H0 Hw]. apply Forall_cons in Hw as [H1 _].
  pose proof (split_default_day p0 p1 H0 H1) as H3.
  unfold normalize_text. rewrite replace_not_set_other.
  - apply insert_default_day_other. by rewrite H3.
  - intros Heq. by rewrite Heq in H3.
Qed.

Lemma normalize_text_idem x : normalize_text (normalize_text x) = normalize_text x.
Proof.
  destruct x as [s|]; [|done].
  destruct (decide (s = "not set")) as [->|Hne]; [done|].
  assert (normalize_text (Some s) = insert_default_day (Some s)) as E.
  { unfold normalize_text. by rewrite replace_not_set_other. }
  rewrite E.
  destruct (split s) as [|p0 [|p1 [|p2 ps]]] eqn:Hs;
    try (rewrite insert_default_day_other by (by rewrite Hs);
         rewrite E; apply insert_default_day_other; by rewrite Hs).
  rewrite (insert_default_day_two s p0 p1 Hs).
  by apply (normalize_text_default_day s).
Qed.

End DatesFacts.

(** C8, as amended.  Parsing the parser's own output again gives the same
    text where that output no longer holds the text the transform removes:
    a parsed title without "title " in it, a parsed author without
    "author " and " *" in it.  The text normalisation of the date
    normalizer (sentinel to missing, default day inserted) gives the same
    result when it is applied to its own result, for every value. *)
Theorem reparse_normalized_text :
  (∀ cell, PyStr.find "title " (Parser.parse_title cell) = None →
     Parser.parse_title (Parser.parse_title cell) = Parser.parse_title cell) ∧
  (∀ cell, PyStr.find "author " (Parser.parse_author cell) = None →
     PyStr.find " *" (Parser.parse_author cell) = None →
     Parser.parse_author (Parser.parse_author cell) = Parser.parse_author cell) ∧
  (∀ x, Dates.normalize_text (Dates.normalize_text x) = Dates.normalize_text x).
Proof.
  split_and!.
  - intros cell H. unfold Parser.parse_title at 1.
    rewrite PyStrFacts.replace1_absent by done. apply PyStrFacts.strip_idem.
  - intros cell Ha Hm. unfold Parser.parse_author at 1.
    rewrite (PyStrFacts.replace1_absent "author ") by done.
    rewrite PyStrFacts.replace1_absent by done. apply PyStrFacts.strip_idem.
  - apply DatesFacts.normalize_text_idem.
Qed.

Lemma reparse_normalized_text_witness :
  Parser.parse_title (Parser.parse_title "title  Dune ") = "Dune" ∧
  Parser.parse_author (Parser.parse_author "author Herbert, Frank *") = "Herbert, Frank" ∧
  Dates.normalize_text (Dates.normalize_text (Some "March 2020")) = Some "March 1, 2020".
Proof.
  destruct reparse_normalized_text as (Htitle & Hauthor & Hdate).
  split_and!.
  - exact (Htitle "title  Dune " eq_refl).
  - exact (Hauthor "author Herbert, Frank *" eq_refl eq_refl).
  - exact (Hdate (Some "March 2020")).
Defined.

(** C3.  On one text value the date normalizer (the steps of
    [format_and_convert_date] after the extraction) works as follows: the
    sentinel "not set" becomes missing; any other value that [split()] cuts
    into exactly two words is parsed as the first word, " 1, ", and the
    second word, so that "March 2020" is parsed as "March 1, 2020"; any
    other value is parsed as it is, so that "March 15, 2020" is parsed
    unchanged; a missing value stays missing; and a text the parser cannot
    read becomes missing: the result is always a date or missing, never an
    exception.  [format_date] prepares the same text wherever the value
    does not contain "not set", and maps "not set" to missing too. *)
Theorem date_normalizer_rule (to_datetime : string → option Timestamp) :
  Dates.convert_date to_datetime (Some "not set") = None ∧
  (∀ s p0 p1, s ≠ "not set" → PyStr.split s = [p0; p1] →
     Dates.convert_date to_datetime (Some s) = to_datetime (p0 +:+ " 1, " +:+ p1)) ∧
  (∀ s, s ≠ "not set" → length (PyStr.split s) ≠ 2%nat →
     Dates.convert_date to_datetime (Some s) = to_datetime s) ∧
  Dates.convert_date to_datetime (Some "March 2020") = to_datetime "March 1, 2020" ∧
  Dates.convert_date to_datetime (Some "March 15, 2020") = to_datetime "March 15, 2020" ∧
  Dates.convert_date to_datetime None = None ∧
  (∀ x t, Dates.normalize_text x = Some t → to_datetime t = None →
     Dates.convert_date to_datetime x = None) ∧
  (∀ x, Dates.convert_date to_datetime x = None ∨
        ∃ d, Dates.convert_date to_datetime x = Some d) ∧
  Dates.format_date (Some "not set") = None ∧
  (∀ s, PyStr.contains "not set" s = false →
     Dates.format_date (Some s) = Dates.normalize_text (Some s)).
Proof.
  split_and!; try reflexivity.
  - intros s p0 p1 Hne Hs. unfold Dates.convert_date, Dates.normalize_text.
    rewrite DatesFacts.replace_not_set_other by done.
    by rewrite (DatesFacts.insert_default_day_two s p0 p1).
  - intros s Hne Hs. unfold Dates.convert_date, Dates.normalize_text.
    rewrite DatesFacts.replace_not_set_other by done.
    by rewrite DatesFacts.insert_default_day_other.
  - intros x t Hx Ht. unfold Dates.convert_date. by rewrite Hx.
  - intros x. destruct (Dates.convert_date to_datetime x) as [d|]; eauto.
  - intros s Hs. unfold Dates.format_date, Dates.normalize_text. rewrite Hs.
    rewrite DatesFacts.replace_not_set_other; [done|].
    intros ->. by vm_compute in Hs.
Qed.

Lemma date_normalizer_rule_witness :
  Dates.convert_date Samples.read_date (Some "March 2020") =
    Some {| year := 2020; month := 3; day := 1 |} ∧
  Dates.convert_date Samples.read_date (Some "March 15, 2020") =
    Some {| year := 2020; month := 3; day := 15 |} ∧
  Dates.convert_date Samples.read_date (Some "sometime in spring") = None ∧
  Dates.format_date (Some "March 2020") = Some "March 1, 2020".
Proof.
  destruct (date_normalizer_rule Samples.read_date)
    as (_ & Htwo & Hother & _ & _ & _ & Hbad & _ & _ & Hformat).
  split_and!.
  - rewrite (Htwo "March 2020" "March" "2020"); [reflexivity | discriminate | reflexivity].
  - rewrite (Hother "March 15, 2020"); [reflexivity | discriminate | simpl; lia].
  - apply (Hbad _ "sometime in spring"); reflexivity.
  - rewrite (Hformat "March 2020"); reflexivity.
Defined.

(** ** [user_rating] and [read?] *)

Module RatingFacts.
Import PyStr PyStrFacts Parser.

Lemma rating_lazy_eq s :
  rating_lazy s =
    match (if startswith "'s rating" s then rating_tail (drop 9 s) else None) with
    | Some g => Some g
    | None =>
        match s with
        | EmptyString => None
        | String c s' => if is_newline c then None else rating_lazy s'
        end
    end.
Proof. by destruct s. Qed.

(** The lazy group stops at the first ['s rating] after which the rest of
    the pattern matches. *)
Lemma rating_lazy_at w X g :
  no_newline w = true →
  find "'s rating" (w +:+ "'s rating") = Some (String.length w) →
  rating_tail X = Some g →
  rating_lazy (w +:+ "'s rating" +:+ X) = Some g.
Proof.
  intros Hnl Hfind Htail. induction w as [|c w IH].
  - rewrite app_empty_l, rating_lazy_eq, startswith_app.
    change 9%nat with (String.length "'s rating"). by rewrite drop_app, Htail.
  - apply andb_prop in Hnl as [Hc Hnl]. apply negb_true_iff in Hc.
    rewrite app_cons in Hfind. cbn [String.length] in Hfind.
    apply find_cons_Some in Hfind as [Hno Hfind].
    rewrite app_cons, rating_lazy_eq.
    destruct (startswith "'s rating" (String c (w +:+ "'s rating" +:+ X))) eqn:Hsw.
    + rewrite <- app_cons, <- app_assoc in Hsw.
      apply startswith_shorter in Hsw; [rewrite app_cons in Hsw; congruence|].
      rewrite app_cons. simpl String.length at 2. rewrite length_app. simpl. lia.
    + rewrite Hc. by apply IH.
Qed.

Lemma rating_search_at who X g :
  who ≠ "" → no_newline who = true →
  find "'s rating" (who +:+ "'s rating") = Some (String.length who) →
  rating_tail X = Some g →
  rating_search (who +:+ "'s rating" +:+ X) = Some g.
Proof.
  intros Hne Hnl Hfind Htail. destruct who as [|c w]; [done|].
  apply andb_prop in Hnl as [Hc Hnl]. apply negb_true_iff in Hc.
  rewrite app_cons in Hfind. cbn [String.length] in Hfind.
  apply find_cons_Some in Hfind as [_ Hfind].
  rewrite app_cons. simpl. rewrite Hc.
  by rewrite (rating_lazy_at w X g).
Qed.

Lemma rating_phrase_at who X g :
  who ≠ "" → no_newline who = true →
  find "'s rating" (who +:+ "'s rating") = Some (String.length who) →
  rating_tail X = Some g →
  rating_phrase (Some (who +:+ "'s rating" +:+ X)) = Some (strip g).
Proof.
  intros Hne Hnl Hfind Htail. unfold rating_phrase.
  change (strip <$> rating_search (who +:+ "'s rating" +:+ X) = Some (strip g)).
  by rewrite (rating_search_at who X g).
Qed.

Lemma rating_mapping_Some p n :
  rating_mapping !! p = Some n ↔
    (p = "did not like it" ∧ n = 1) ∨ (p = "it was ok" ∧ n = 2) ∨
    (p = "liked it" ∧ n = 3) ∨ (p = "really liked it" ∧ n = 4) ∨
    (p = "it was amazing" ∧ n = 5).
Proof.
  unfold rating_mapping.
  rewrite !lookup_insert_Some, lookup_singleton_Some. split.
  - intuition (subst; auto 10).
  - intros H. decompose [and or] H; subst;
      repeat first [ left; split; reflexivity
                   | right; split; [discriminate|]
                   | split; reflexivity ].
Qed.

Lemma rating_mapping_None p :
  p ∉ ["did not like it"; "it was ok"; "liked it"; "really liked it"; "it was amazing"] →
  rating_mapping !! p = None.
Proof.
  intros Hp. destruct (rating_mapping !! p) as [n|] eqn:E; [|done].
  exfalso. apply Hp. apply rating_mapping_Some in E.
  rewrite !elem_of_cons. intuition auto 10.
Qed.

Lemma user_rating_eq cell :
  Parser.user_rating cell = rating_phrase cell ≫= (rating_mapping !!.).
Proof. reflexivity. Qed.

(** *** Digits *)

Lemma digit_run_app ds rest :
  all_digits ds = true → digit_run (ds +:+ rest) = ds +:+ digit_run rest.
Proof.
  induction ds as [|d ds IH]; [done|]. intros [Hd Hds]%andb_prop.
  rewrite !app_cons. simpl. by rewrite Hd, IH.
Qed.

Lemma extract_digits_skip label s :
  no_digit label = true → extract_digits (label +:+ s) = extract_digits s.
Proof.
  induction label as [|c label IH]; [done|]. intros [Hc Hl]%andb_prop.
  apply negb_true_iff in Hc. rewrite app_cons. simpl. by rewrite Hc, IH.
Qed.

Lemma extract_digits_run label ds rest :
  no_digit label = true → ds ≠ "" → all_digits ds = true → digit_run rest = "" →
  extract_digits (label +:+ ds +:+ rest) = Some ds.
Proof.
  intros Hl Hne Hds Hrest. rewrite extract_digits_skip by done.
  destruct ds as [|d ds]; [done|]. pose proof Hds as [Hd _]%andb_prop.
  rewrite app_cons. unfold extract_digits. rewrite Hd.
  rewrite <- app_cons, digit_run_app by done. by rewrite Hrest, app_empty_r.
Qed.

Lemma digit_run_digits s : all_digits (digit_run s) = true.
Proof.
  induction s as [|c s IH]; [done|]. simpl.
  destruct (is_digit c) eqn:Hc; [|done]. unfold all_digits in *. simpl.
  by rewrite Hc, IH.
Qed.

Lemma extract_digits_Some s ds :
  extract_digits s = Some ds → ds ≠ "" ∧ all_digits ds = true.
Proof.
  induction s as [|c s IH]; [done|]. simpl.
  destruct (is_digit c) eqn:Hc; [|done]. intros [= <-]. split; [done|].
  pose proof (digit_run_digits (String c s)) as H. simpl in H. by rewrite Hc in H.
Qed.

Lemma parse_digits_total acc ds :
  all_digits ds = true → is_Some (parse_digits acc ds).
Proof.
  revert acc. induction ds as [|d ds IH]; intros acc; [by eexists|].
  intros [Hd Hds]%andb_prop. simpl. rewrite Hd. by apply IH.
Qed.

(** Whatever the pattern extracts is read as a number. *)
Lemma votes_count_extracted cell ds :
  cell ≫= extract_digits = Some ds → is_Some (votes_count cell).
Proof.
  intros H. unfold votes_count. rewrite H.
  destruct cell as [s|]; [|done]. simpl in H.
  apply extract_digits_Some in H as [Hne Hds].
  unfold to_numeric. simpl. destruct ds as [|d ds]; [done|].
  by apply parse_digits_total.
Qed.

End RatingFacts.

(** C4.  The rating cell is searched for ['s rating]; the text after it,
    trimmed, is looked up in the fixed vocabulary.  The result is an integer
    exactly when that text is one of the five phrases, and then it is the
    integer of the phrase: 1 for "did not like it", 2 for "it was ok", 3 for
    "liked it", 4 for "really liked it", 5 for "it was amazing".  Any other
    phrase, a cell without ['s rating] and an absent cell give missing. *)
Theorem user_rating_vocabulary :
  (∀ cell n, Parser.user_rating cell = Some n ↔
     ∃ p, Parser.rating_phrase cell = Some p ∧
          ((p = "did not like it" ∧ n = 1) ∨ (p = "it was ok" ∧ n = 2) ∨
           (p = "liked it" ∧ n = 3) ∨ (p = "really liked it" ∧ n = 4) ∨
           (p = "it was amazing" ∧ n = 5))) ∧
  (∀ cell p, Parser.rating_phrase cell = Some p →
     p ∉ ["did not like it"; "it was ok"; "liked it"; "really liked it"; "it was amazing"] →
     Parser.user_rating cell = None) ∧
  (∀ cell, Parser.rating_phrase cell = None → Parser.user_rating cell = None) ∧
  Parser.user_rating None = None ∧
  (∀ who p n,
     who ≠ "" → PyStr.no_newline who = true →
     PyStr.find "'s rating" (who +:+ "'s rating") = Some (String.length who) →
     Parser.rating_mapping !! p = Some n →
     Parser.rating_phrase (Some (who +:+ "'s rating " +:+ p)) = Some p ∧
     Parser.user_rating (Some (who +:+ "'s rating " +:+ p)) = Some n).
Proof.
  split_and!.
  - intros cell n. rewrite RatingFacts.user_rating_eq.
    destruct (Parser.rating_phrase cell) as [p|]; simpl.
    + rewrite RatingFacts.rating_mapping_Some. split.
      * intros H. by exists p.
      * by intros (q & [= <-] & H).
    + split; [done | by intros (q & ? & _)].
  - intros cell p Hp Hnot. rewrite RatingFacts.user_rating_eq, Hp. simpl.
    by apply RatingFacts.rating_mapping_None.
  - intros cell Hp. by rewrite RatingFacts.user_rating_eq, Hp.
  - reflexivity.
  - intros who p n Hne Hnl Hfind Hmap.
    assert (Parser.rating_phrase (Some (who +:+ "'s rating " +:+ p)) = Some p) as Hphrase.
    { apply RatingFacts.rating_mapping_Some in Hmap.
      destruct Hmap as [[-> _]|[[-> _]|[[-> _]|[[-> _]|[-> _]]]]].
      - exact (RatingFacts.rating_phrase_at who " did not like it" _ Hne Hnl Hfind eq_refl).
      - exact (RatingFacts.rating_phrase_at who " it was ok" _ Hne Hnl Hfind eq_refl).
      - exact (RatingFacts.rating_phrase_at who " liked it" _ Hne Hnl Hfind eq_refl).
      - exact (RatingFacts.rating_phrase_at who " really liked it" _ Hne Hnl Hfind eq_refl).
      - exact (RatingFacts.rating_phrase_at who " it was amazing" _ Hne Hnl Hfind eq_refl). }
    split; [done|]. by rewrite RatingFacts.user_rating_eq, Hphrase.
Qed.

Lemma user_rating_vocabulary_witness :
  Parser.user_rating (Some "Ben's rating it was amazing") = Some 5 ∧
  Parser.user_rating (Some "Ben's rating loved it") = None ∧
  Parser.user_rating (Some "no rating given") = None.
Proof.
  destruct user_rating_vocabulary as (_ & Hother & Hnone & _ & Hfive).
  split_and!.
  - apply (Hfive "Ben" "it was amazing" 5); [discriminate | reflexivity..].
  - apply (Hother _ "loved it"); [reflexivity|].
    rewrite !elem_of_cons, elem_of_nil. intros [?|[?|[?|[?|[?|[]]]]]]; discriminate.
  - apply Hnone. reflexivity.
Defined.

(** C5, as amended.  [read?] is true exactly when the leftmost run of
    decimal digits in the votes cell is read as a number greater than 0; in
    a cell made of a digit-free label such as "# times read ", then digits,
    then text that does not go on with a digit, that run is those digits.  A
    run of digits is always read as a number.  When the cell holds no digit,
    or is absent, [read?] is false: the column holds a truth value in every
    row. *)
Theorem read_flag_rule :
  (∀ cell, Parser.read_flag cell = true ↔
     ∃ n, Parser.votes_count cell = Some n ∧ (0 < n)%N) ∧
  (∀ cell ds, cell ≫= Parser.extract_digits = Some ds → is_Some (Parser.votes_count cell)) ∧
  (∀ cell, cell ≫= Parser.extract_digits = None → Parser.read_flag cell = false) ∧
  (∀ label ds rest,
     PyStr.no_digit label = true → ds ≠ "" → PyStr.all_digits ds = true →
     Parser.digit_run rest = "" →
     Some (label +:+ ds +:+ rest) ≫= Parser.extract_digits = Some ds) ∧
  Parser.read_flag (Some "# times read 2") = true ∧
  Parser.read_flag (Some "# times read 0") = false.
Proof.
  split_and!; try reflexivity.
  - intros cell. unfold Parser.read_flag, Parser.gt_zero.
    destruct (Parser.votes_count cell) as [n|].
    + rewrite N.ltb_lt. split.
      * intros H. by exists n.
      * by intros (m & [= <-] & H).
    + split; [done | by intros (m & ? & _)].
  - apply RatingFacts.votes_count_extracted.
  - intros cell H. unfold Parser.read_flag, Parser.votes_count. by rewrite H.
  - intros label ds rest Hl Hne Hds Hrest. simpl.
    by apply RatingFacts.extract_digits_run.
Qed.

Lemma read_flag_rule_witness :
  Parser.read_flag (Some "# times read 12") = true ∧
  Parser.read_flag (Some "# times read") = false ∧
  Some "# times read 12" ≫= Parser.extract_digits = Some "12".
Proof.
  destruct read_flag_rule as (Hiff & _ & Hnone & Hrun & _).
  split_and!.
  - apply Hiff. exists 12%N. split; [reflexivity | reflexivity].
  - apply Hnone. reflexivity.
  - apply (Hrun "# times read " "12" ""); [reflexivity | discriminate | reflexivity..].
Defined.

(** C5, as stated, fails: a votes cell without any digit gives no integer,
    and yet the field is not missing: it is false. *)
Lemma read_flag_without_integer_is_false :
  Some "# times read" ≫= Parser.extract_digits = None ∧
  Parser.votes_count (Some "# times read") = None ∧
  Parser.read_flag (Some "# times read") = false.
Proof. split_and!; reflexivity. Qed.

(** ** Pagination driver *)

Module PaginationFacts.
Import Pagination.

Section Driver.
Variable fetch : Z → Z → list Book.
Variable user_id : Z.

(** The loop entered at page [k + 1], with [n] more non-empty pages
    before the first empty one. *)
Lemma loop_from n : ∀ k all log fuel,
  (∀ i, (k < i ≤ k + n)%nat → fetch user_id (Z.of_nat i) ≠ []) →
  fetch user_id (Z.of_nat (S (k + n))) = [] →
  (n < fuel)%nat →
  loop fetch fuel user_id
       {| page_num := Z.of_nat (S k); all_books_df := all; requested := log |} =
    Some {| page_num := Z.of_nat (S (k + n));
            all_books_df :=
              all ++ concat ((λ i, fetch user_id (Z.of_nat i)) <$> seq (S k) n);
            requested := log ++ (Z.of_nat <$> seq (S k) (S n)) |}.
Proof.
  induction n as [|n IH]; intros k all log fuel Hfull Hempty Hfuel.
  - destruct fuel as [|fuel]; [lia|]. rewrite Nat.add_0_r in *.
    cbn [loop]. unfold body. cbn [page_num all_books_df requested].
    rewrite Hempty. cbn. by rewrite app_nil_r.
  - destruct fuel as [|fuel]; [lia|].
    cbn [loop]. unfold body. cbn [page_num all_books_df requested].
    destruct (fetch user_id (Z.of_nat (S k))) as [|b bs] eqn:Hpage.
    { exfalso. apply (Hfull (S k)); [lia | done]. }
    replace (Z.of_nat (S k) + 1) with (Z.of_nat (S (S k))) by lia.
    rewrite (IH (S k)).
    + replace (S k + n)%nat with (k + S n)%nat by lia.
      cbn [seq fmap list_fmap concat]. rewrite Hpage.
      by rewrite <- !(assoc_L (++)).
    + intros i Hi. apply Hfull. lia.
    + by replace (S k + n)%nat with (k + S n)%nat by lia.
    + lia.
Qed.

(** With too little fuel the loop is still running. *)
Lemma loop_short n : ∀ k all log fuel,
  (∀ i, (k < i ≤ k + n)%nat → fetch user_id (Z.of_nat i) ≠ []) →
  (fuel ≤ n)%nat →
  loop fetch fuel user_id
       {| page_num := Z.of_nat (S k); all_books_df := all; requested := log |} = None.
Proof.
  induction n as [|n IH]; intros k all log fuel Hfull Hfuel.
  - by replace fuel with 0%nat by lia.
  - destruct fuel as [|fuel]; [done|].
    cbn [loop]. unfold body. cbn [page_num all_books_df requested].
    destruct (fetch user_id (Z.of_nat (S k))) as [|b bs] eqn:Hpage.
    { exfalso. apply (Hfull (S k)); [lia | done]. }
    replace (Z.of_nat (S k) + 1) with (Z.of_nat (S (S k))) by lia.
    apply IH; [|lia]. intros i Hi. apply Hfull. lia.
Qed.

(** If some page is empty, some page is the first empty one. *)
Lemma first_empty_exists d : ∀ m,
  (∀ i, (1 ≤ i ≤ m)%nat → fetch user_id (Z.of_nat i) ≠ []) →
  fetch user_id (Z.of_nat (S (m + d))) = [] →
  ∃ n, first_empty fetch user_id n.
Proof.
  induction d as [|d IH]; intros m Hfull Hempty.
  - exists m. rewrite Nat.add_0_r in Hempty. by split.
  - destruct (fetch user_id (Z.of_nat (S m))) as [|b bs] eqn:Hpage.
    + exists m. by split.
    + apply (IH (S m)).
      * intros i Hi. destruct (decide (i = S m)) as [->|Hne].
        -- by rewrite Hpage.
        -- apply Hfull. lia.
      * by replace (S m + d)%nat with (m + S d)%nat by lia.
Qed.
End Driver.

End PaginationFacts.

(** C1.  The driver starts at page 1 and requests one page per pass.  If
    pages 1 to [n] are non-empty and page [n + 1] is empty, then the loop
    ends in pass [n + 1], not before: it has requested pages 1, 2, ...,
    [n + 1] in this order, stands at page [n + 1], and returns the rows of
    pages 1 to [n], concatenated in page order.  If some page from 1 on is
    empty, there is such a first empty page, so the driver terminates. *)
Theorem get_all_goodreads_user_books_first_empty_page
    (get_goodreads_user_books_by_page : Z → Z → list Book) (user_id : Z) :
  (∀ n, Pagination.first_empty get_goodreads_user_books_by_page user_id n →
     (∀ fuel, (n < fuel)%nat →
        Pagination.run get_goodreads_user_books_by_page fuel user_id =
          Some {| Pagination.page_num := Z.of_nat (S n);
                  Pagination.all_books_df :=
                    Pagination.pages_upto get_goodreads_user_books_by_page user_id n;
                  Pagination.requested := Z.of_nat <$> seq 1 (S n) |} ∧
        Pagination.get_all_goodreads_user_books get_goodreads_user_books_by_page fuel user_id =
          Some (Pagination.pages_upto get_goodreads_user_books_by_page user_id n)) ∧
     (∀ fuel, (fuel ≤ n)%nat →
        Pagination.run get_goodreads_user_books_by_page fuel user_id = None)) ∧
  ((∃ p, (1 ≤ p)%nat ∧ get_goodreads_user_books_by_page user_id (Z.of_nat p) = []) →
     ∃ n, Pagination.first_empty get_goodreads_user_books_by_page user_id n).
Proof.
  split.
  - intros n [Hfull Hempty].
    assert (∀ fuel, (n < fuel)%nat →
      Pagination.run get_goodreads_user_books_by_page fuel user_id =
        Some {| Pagination.page_num := Z.of_nat (S n);
                Pagination.all_books_df :=
                  Pagination.pages_upto get_goodreads_user_books_by_page user_id n;
                Pagination.requested := Z.of_nat <$> seq 1 (S n) |}) as Hrun.
    { intros fuel Hfuel. unfold Pagination.run, Pagination.initial.
      change 1 with (Z.of_nat 1).
      by rewrite (PaginationFacts.loop_from _ _ n 0 [] [] fuel). }
    split.
    + intros fuel Hfuel. split; [by apply Hrun|].
      unfold Pagination.get_all_goodreads_user_books. by rewrite Hrun.
    + intros fuel Hfuel. unfold Pagination.run, Pagination.initial.
      change 1 with (Z.of_nat 1).
      by apply (PaginationFacts.loop_short _ _ n 0).
  - intros (p & Hp & Hempty). destruct p as [|p]; [lia|].
    apply (PaginationFacts.first_empty_exists _ _ p 0); [intros i Hi; lia | done].
Qed.

Lemma get_all_goodreads_user_books_first_empty_page_witness :
  Pagination.get_all_goodreads_user_books Samples.shelf 3 42944663 =
    Some [Samples.a_book "Dune" (Some "234225"); Samples.a_book "Emma" (Some "6969");
          Samples.a_book "Ulysses" (Some "338798")] ∧
  Pagination.run Samples.shelf 2 42944663 = None ∧
  ∃ n, Pagination.first_empty Samples.shelf 42944663 n.
Proof.
  destruct (get_all_goodreads_user_books_first_empty_page Samples.shelf 42944663)
    as [Hstop Hexists].
  assert (Pagination.first_empty Samples.shelf 42944663 2%nat) as Hfirst.
  { split; [|reflexivity].
    intros i Hi. assert (i = 1 ∨ i = 2)%nat as [-> | ->] by lia; discriminate. }
  split_and!.
  - apply (Hstop 2%nat Hfirst). lia.
  - apply (Hstop 2%nat Hfirst). lia.
  - apply Hexists. exists 5%nat. split; [lia | reflexivity].
Defined.

(** ** Merger *)

Module MergerFacts.
Import Merger.

Lemma combine_cons b G H :
  left_join (b :: G) H =
    merge_row H b ++ left_join G H.
Proof. reflexivity. Qed.

Lemma merge_row_unmatched H b :
  partners (goodreads_id b) H = [] → merge_row H b = [unmatched b].
Proof. unfold merge_row. by intros ->. Qed.

Lemma merge_row_matched H b :
  partners (goodreads_id b) H ≠ [] →
  merge_row H b = matched b <$> partners (goodreads_id b) H.
Proof. unfold merge_row. by destruct (partners (goodreads_id b) H). Qed.

Lemma merge_row_length H b : (1 ≤ length (merge_row H b))%nat.
Proof.
  unfold merge_row. destruct (partners (goodreads_id b) H); simpl; lia.
Qed.

Lemma partners_absent k H : k ∉ external_id <$> H → partners k H = [].
Proof.
  intros Hk. unfold partners. induction H as [|g H IH]; [done|].
  rewrite fmap_cons, not_elem_of_cons in Hk. destruct Hk as [Hne Hk].
  rewrite filter_cons_False by done. by apply IH.
Qed.

Lemma partners_unique k H :
  NoDup (external_id <$> H) → (length (partners k H) ≤ 1)%nat.
Proof.
  unfold partners. induction H as [|g H IH]; [simpl; lia|].
  rewrite fmap_cons. intros [Hg Hnodup]%NoDup_cons.
  destruct (decide (external_id g = k)) as [<-|Hne].
  - rewrite filter_cons_True by done.
    fold (partners (external_id g) H). by rewrite partners_absent.
  - rewrite filter_cons_False by done. by apply IH.
Qed.

Lemma merge_row_length_unique H b :
  NoDup (external_id <$> H) → length (merge_row H b) = 1%nat.
Proof.
  intros Hnodup. pose proof (partners_unique (goodreads_id b) H Hnodup) as Hle.
  unfold merge_row. destruct (partners (goodreads_id b) H) as [|g [|g' gs]]; simpl in *;
    [done | done | lia].
Qed.

Lemma merge_row_book H b m : m ∈ merge_row H b → book m = b.
Proof.
  unfold merge_row. destruct (partners (goodreads_id b) H) as [|g gs].
  - by intros ->%list_elem_of_singleton.
  - by intros (g' & -> & _)%list_elem_of_fmap.
Qed.

(** The rows one left row produces all carry its key. *)
Lemma filter_merge_row k H b :
  filter (λ m, goodreads_id (book m) = k) (merge_row H b) =
    if decide (goodreads_id b = k) then merge_row H b else [].
Proof.
  pose proof (merge_row_book H b) as Hbook.
  induction (merge_row H b) as [|m l IH]; [by destruct (decide _)|].
  assert (book m = b) as Hm by (apply Hbook; left).
  assert (∀ m', m' ∈ l → book m' = b) as Hl by (intros m' ?; apply Hbook; by right).
  specialize (IH Hl). destruct (decide (goodreads_id b = k)) as [Hk|Hk].
  - rewrite filter_cons_True by (by rewrite Hm). by rewrite IH.
  - rewrite filter_cons_False by (by rewrite Hm). by rewrite IH.
Qed.

Lemma filter_combine_unmatched k G H :
  partners k H = [] →
  filter (λ m, goodreads_id (book m) = k) (left_join G H) =
    unmatched <$> with_key k G.
Proof.
  intros Hk. unfold with_key. induction G as [|b G IH]; [done|].
  rewrite combine_cons, filter_app, filter_merge_row, IH.
  destruct (decide (goodreads_id b = k)) as [Hb|Hb].
  - rewrite filter_cons_True by done. rewrite merge_row_unmatched by (by rewrite Hb).
    done.
  - by rewrite filter_cons_False by done.
Qed.

Lemma filter_combine_matched k G H :
  partners k H ≠ [] →
  filter (λ m, goodreads_id (book m) = k) (left_join G H) =
    with_key k G ≫= (λ b, matched b <$> partners k H).
Proof.
  intros Hk. unfold with_key. induction G as [|b G IH]; [done|].
  rewrite combine_cons, filter_app, filter_merge_row, IH.
  destruct (decide (goodreads_id b = k)) as [Hb|Hb].
  - rewrite filter_cons_True by done. rewrite merge_row_matched by (by rewrite Hb).
    by rewrite Hb.
  - by rewrite filter_cons_False by done.
Qed.

Lemma product_length (l : list Book) (gs : list Genre) :
  length (l ≫= (λ b, matched b <$> gs)) = (length l * length gs)%nat.
Proof.
  induction l as [|b l IH]; [done|].
  rewrite bind_cons, length_app, length_fmap, IH. simpl. lia.
Qed.

Lemma combine_length_ge G H :
  (length G ≤ length (left_join G H))%nat.
Proof.
  induction G as [|b G IH]; [done|].
  rewrite combine_cons, length_app. pose proof (merge_row_length H b). simpl. lia.
Qed.

Lemma combine_length_unique G H :
  NoDup (external_id <$> H) →
  length (left_join G H) = length G.
Proof.
  intros Hnodup. induction G as [|b G IH]; [done|].
  rewrite combine_cons, length_app, merge_row_length_unique, IH by done. done.
Qed.

Lemma combine_elem m G H :
  m ∈ left_join G H ↔ ∃ b, b ∈ G ∧ m ∈ merge_row H b.
Proof.
  unfold left_join. rewrite list_elem_of_bind.
  split; intros (b & ? & ?); by exists b.
Qed.

(** *** Frames *)

Lemma combine_frames G H :
  combine_goodreads_and_hardcover (Frame G) (Frame H) = Return (left_join G H).
Proof. reflexivity. Qed.

Lemma combine_Return goodreads_df hardcover_df merged :
  combine_goodreads_and_hardcover goodreads_df hardcover_df = Return merged →
  goodreads_df = Frame (frame_rows goodreads_df) ∧
  hardcover_df = Frame (frame_rows hardcover_df) ∧
  merged = left_join (frame_rows goodreads_df) (frame_rows hardcover_df).
Proof.
  destruct goodreads_df as [|G], hardcover_df as [|H]; simpl; try discriminate.
  by intros [= <-].
Qed.

Lemma combine_no_columns_r goodreads_df :
  combine_goodreads_and_hardcover goodreads_df NoColumns = Raise KeyError.
Proof. by destruct goodreads_df. Qed.

Lemma left_join_all_unmatched G H :
  (∀ b, b ∈ G → goodreads_id b ∉ external_id <$> H) →
  left_join G H = unmatched <$> G.
Proof.
  induction G as [|b G IH]; intros Habsent; [done|].
  rewrite combine_cons, merge_row_unmatched, IH.
  - done.
  - intros b' Hb'. apply Habsent. by right.
  - apply partners_absent, Habsent. left.
Qed.

End MergerFacts.

(** C2, where the code departs from it.  The genre frame is built by
    [pd.DataFrame(flattened_data)]; when the response lists no mapping, it
    has no column, the merge finds no [external_id] to join on and raises
    [KeyError], so no book row comes out, whatever the book table is.  With
    at least one genre row the frame has its columns, and books whose
    identifier no genre row carries come out as the claim says: each once,
    in order, with absent [external_id] and [tags]. *)
Theorem combine_goodreads_and_hardcover_raises_without_genres (books : list Book) :
  Merger.combine_goodreads_and_hardcover (Frame books) (pd_DataFrame []) = Raise KeyError ∧
  (∀ g genres,
     (∀ b, b ∈ books → goodreads_id b ∉ external_id <$> g :: genres) →
     Merger.combine_goodreads_and_hardcover (Frame books) (pd_DataFrame (g :: genres)) =
       Return ((λ b, {| book := b; merged_external_id := None; merged_tags := None |})
                 <$> books)).
Proof.
  split; [reflexivity|].
  intros g genres Habsent. cbn [pd_DataFrame].
  by rewrite MergerFacts.combine_frames, MergerFacts.left_join_all_unmatched.
Qed.

Lemma combine_goodreads_and_hardcover_raises_without_genres_witness :
  Merger.combine_goodreads_and_hardcover
    (Frame [Samples.a_book "Emma" (Some "6969")]) (pd_DataFrame []) = Raise KeyError ∧
  Merger.combine_goodreads_and_hardcover
    (Frame [Samples.a_book "Emma" (Some "6969")])
    (pd_DataFrame [{| external_id := Some "234225"; tags := ["Science fiction"] |}]) =
    Return [{| book := Samples.a_book "Emma" (Some "6969");
               merged_external_id := None; merged_tags := None |}].
Proof.
  destruct (combine_goodreads_and_hardcover_raises_without_genres
              [Samples.a_book "Emma" (Some "6969")]) as [Hraise Hkept].
  split; [exact Hraise|].
  apply (Hkept {| external_id := Some "234225"; tags := ["Science fiction"] |} []).
  intros b ->%list_elem_of_singleton. cbn [fmap list_fmap external_id].
  rewrite not_elem_of_cons. split; [discriminate|]. apply not_elem_of_nil.
Defined.

(** ** Profile scraper *)

Module ProfileFacts.
Import Profile.

Section Scraper.
Variable re_search : string → string → option string.

Lemma count_in_returns pattern text :
  ∃ v, count_in re_search pattern text = Return v.
Proof.
  unfold count_in. destruct (re_search pattern text) as [g|]; simpl; eauto.
Qed.

Lemma getitem_guarded_returns (tag : option Tag) key :
  (∀ t, tag = Some t → is_Some (tag_attrs t !! key)) →
  ∃ v, try_except (getitem tag key) TypeError "" = Return v.
Proof.
  intros Hattr. destruct tag as [t|]; simpl; [|eauto].
  destruct (Hattr t eq_refl) as [v ->]. simpl. eauto.
Qed.

Lemma meta_content_returns soup property :
  attributes_present soup → ∃ v, meta_content soup property = Return v.
Proof.
  intros [_ Hmeta]. unfold meta_content. apply getitem_guarded_returns.
  intros t. apply Hmeta.
Qed.

Lemma meta_content_missing_attribute soup property t :
  soup_find soup "meta" (Some ("property", property)) = Some t →
  tag_attrs t !! "content" = None →
  meta_content soup property = Raise KeyError.
Proof. intros Hfind Hattr. unfold meta_content. rewrite Hfind. simpl. by rewrite Hattr. Qed.

(** Where the attributes are present the scraper returns its record of
    ten fields, whatever else the page lacks. *)
Lemma get_user_info_returns soup :
  attributes_present soup →
  ∃ info, get_user_info re_search soup = Return info ∧ dom info = fields.
Proof.
  intros Hattrs. unfold get_user_info.
  assert (∃ v, try_except
    (canonical_link ← getitem (soup_find soup "link" (Some ("rel", "canonical"))) "href";
     mret (id_of_link canonical_link)) TypeError "" = Return v) as [v1 ->].
  { destruct Hattrs as [Hlink _].
    destruct (soup_find soup "link" (Some ("rel", "canonical"))) as [t|]; simpl; [|eauto].
    destruct (Hlink t eq_refl) as [v ->]. simpl. eauto. }
  assert (∃ v, try_except
    (title ← get_text (soup_find soup "title" None);
     g ← group1 (re_search (count_pattern +:+ "\s+books") title);
     mret (PyStr.remove_char "," g)) AttributeError "" = Return v) as [v2 ->].
  { destruct (soup_find soup "title" None) as [t|]; simpl; [|eauto].
    destruct (re_search _ (tag_text t)); simpl; eauto. }
  cbn [mbind result_bind].
  edestruct count_in_returns as [v3 ->]. cbn [mbind result_bind].
  edestruct count_in_returns as [v4 ->]. cbn [mbind result_bind].
  edestruct count_in_returns as [v5 ->]. cbn [mbind result_bind].
  destruct (meta_content_returns soup "og:title" Hattrs) as [v6 ->].
  destruct (meta_content_returns soup "profile:first_name" Hattrs) as [v7 ->].
  destruct (meta_content_returns soup "profile:last_name" Hattrs) as [v8 ->].
  destruct (meta_content_returns soup "profile:username" Hattrs) as [v9 ->].
  cbn [mbind result_bind].
  assert (∃ v, try_except (group1 (re_search " Friends \((\d+)\)" (soup_text soup)))
                          AttributeError "" = Return v) as [v10 ->].
  { destruct (re_search _ (soup_text soup)); simpl; eauto. }
  cbn [mbind result_bind mret result_ret].
  eexists. split; [reflexivity|].
  unfold fields. rewrite !dom_insert_L, dom_singleton_L. set_solver.
Qed.
End Scraper.

End ProfileFacts.

(** C6.  The scraper does not always return its record: on a page whose
    [og:title] element has no [content] attribute the lookup raises
    [KeyError], which the handler for [TypeError] lets through, so the call
    raises although every other field of the page could be read. *)
Theorem get_user_info_raises_on_missing_attribute
    (re_search : string → string → option string) :
  Profile.get_user_info re_search Samples.page_without_content = Raise KeyError.
Proof.
  unfold Profile.get_user_info.
  edestruct (ProfileFacts.count_in_returns re_search) as [v3 ->].
  edestruct (ProfileFacts.count_in_returns re_search) as [v4 ->].
  edestruct (ProfileFacts.count_in_returns re_search) as [v5 ->].
  rewrite (ProfileFacts.meta_content_missing_attribute
             Samples.page_without_content "og:title"
             {| Profile.tag_name := "meta";
                Profile.tag_attrs := {[ "property" := "og:title" ]};
                Profile.tag_text := "" |}) by reflexivity.
  vm_compute. destruct (re_search _ _); reflexivity.
Qed.

(** * Further properties of the code *)

(** ** Pagination driver *)

(** X1.  The driver has no bound of its own: when no page from 1 on is
    empty, the loop is still running after any number of passes, and the
    function returns nothing. *)
Theorem get_all_goodreads_user_books_needs_an_empty_page
    (get_goodreads_user_books_by_page : Z → Z → list Book) (user_id : Z) :
  (∀ p, (1 ≤ p)%nat → get_goodreads_user_books_by_page user_id (Z.of_nat p) ≠ []) →
  ∀ fuel,
    Pagination.run get_goodreads_user_books_by_page fuel user_id = None ∧
    Pagination.get_all_goodreads_user_books get_goodreads_user_books_by_page fuel user_id = None.
Proof.
  intros Hfull fuel.
  assert (Pagination.run get_goodreads_user_books_by_page fuel user_id = None) as Hrun.
  { unfold Pagination.run, Pagination.initial. change 1 with (Z.of_nat 1).
    apply (PaginationFacts.loop_short _ _ fuel 0); [|lia].
    intros i Hi. apply Hfull. lia. }
  split; [done|]. unfold Pagination.get_all_goodreads_user_books. by rewrite Hrun.
Qed.

Lemma get_all_goodreads_user_books_needs_an_empty_page_witness :
  Pagination.get_all_goodreads_user_books MoreSamples.endless 50 7 = None.
Proof.
  apply (get_all_goodreads_user_books_needs_an_empty_page MoreSamples.endless 7).
  intros p Hp. discriminate.
Defined.

(** X2.  The driver never looks behind the first empty page: two sources
    that agree on the pages up to and including the first empty one give the
    same run, whatever the later pages hold. *)
Theorem get_all_goodreads_user_books_ignores_later_pages
    (fetch fetch' : Z → Z → list Book) (user_id : Z) (n : nat) :
  Pagination.first_empty fetch user_id n →
  (∀ i, (1 ≤ i ≤ S n)%nat → fetch' user_id (Z.of_nat i) = fetch user_id (Z.of_nat i)) →
  ∀ fuel,
    Pagination.run fetch' fuel user_id = Pagination.run fetch fuel user_id ∧
    Pagination.get_all_goodreads_user_books fetch' fuel user_id =
      Pagination.get_all_goodreads_user_books fetch fuel user_id.
Proof.
  intros [Hfull Hempty] Hagree fuel.
  assert (Pagination.run fetch' fuel user_id = Pagination.run fetch fuel user_id) as Hrun.
  { unfold Pagination.run, Pagination.initial. change 1 with (Z.of_nat 1).
    destruct (decide (fuel ≤ n)%nat) as [Hle|Hgt].
    - rewrite !(PaginationFacts.loop_short _ _ n 0); try done.
      intros i Hi. rewrite Hagree by lia. apply Hfull. lia.
    - rewrite !(PaginationFacts.loop_from _ _ n 0) by first
        [ lia | done | by rewrite Hagree by lia
        | intros i Hi; rewrite ?Hagree by lia; apply Hfull; lia ].
      do 4 f_equal. apply Forall_fmap_ext_1, Forall_forall.
      intros i Hi%elem_of_seq. apply Hagree. lia. }
  split; [done|]. unfold Pagination.get_all_goodreads_user_books. by rewrite Hrun.
Qed.

Lemma get_all_goodreads_user_books_ignores_later_pages_witness :
  Pagination.get_all_goodreads_user_books MoreSamples.shelf_with_gap 9 7 =
    Pagination.get_all_goodreads_user_books Samples.shelf 9 7.
Proof.
  apply (get_all_goodreads_user_books_ignores_later_pages
           Samples.shelf MoreSamples.shelf_with_gap 7 2).
  - split; [|reflexivity].
    intros i Hi. assert (i = 1 ∨ i = 2)%nat as [-> | ->] by lia; discriminate.
  - intros i Hi. assert (i = 1 ∨ i = 2 ∨ i = 3)%nat as [-> | [-> | ->]] by lia; reflexivity.
Defined.

(** ** Merger *)

Module MergerMore.
Import Merger MergerFacts.

Lemma partners_elem g k H : g ∈ partners k H ↔ external_id g = k ∧ g ∈ H.
Proof. unfold partners. by rewrite list_elem_of_filter. Qed.

Lemma partners_nil_absent k H : partners k H = [] → k ∉ external_id <$> H.
Proof.
  intros Hnil (g & Hk & Hg)%list_elem_of_fmap.
  assert (g ∈ partners k H) as Hin by (by apply partners_elem).
  rewrite Hnil in Hin. by apply not_elem_of_nil in Hin.
Qed.

Lemma merge_row_books H b :
  book <$> merge_row H b = replicate (length (merge_row H b)) b.
Proof.
  pose proof (merge_row_book H b) as Hbook.
  induction (merge_row H b) as [|m l IH]; [done|]. simpl.
  rewrite (Hbook m) by left. f_equal. apply IH. intros m' Hm'. apply Hbook. by right.
Qed.

Lemma merge_row_origin H b m :
  m ∈ merge_row H b →
  (m = unmatched b ∧ partners (goodreads_id b) H = []) ∨
  (∃ g, g ∈ H ∧ external_id g = goodreads_id b ∧ m = matched b g).
Proof.
  unfold merge_row. destruct (partners (goodreads_id b) H) as [|g gs] eqn:Hp.
  - intros ->%list_elem_of_singleton. by left.
  - intros (g' & -> & Hg')%list_elem_of_fmap. right. exists g'.
    rewrite <- Hp in Hg'. apply partners_elem in Hg' as [Hk Hin]. done.
Qed.

End MergerMore.

(** X3.  When both frames have their key column and the genre identifiers
    are unique, the merge returns, and it keeps the book table as it is: the
    book columns of the output are the input rows, each once, in the input
    order. *)
Theorem combine_goodreads_and_hardcover_keeps_book_order
    (goodreads_df : list Book) (hardcover_df : list Genre) :
  NoDup (external_id <$> hardcover_df) →
  ∃ merged,
    Merger.combine_goodreads_and_hardcover (Frame goodreads_df) (Frame hardcover_df) =
      Return merged ∧
    book <$> merged = goodreads_df.
Proof.
  intros Hnodup. exists (Merger.left_join goodreads_df hardcover_df). split; [done|].
  induction goodreads_df as [|b G IH]; [done|].
  rewrite MergerFacts.combine_cons, fmap_app, IH, MergerMore.merge_row_books.
  by rewrite MergerFacts.merge_row_length_unique.
Qed.

Lemma combine_goodreads_and_hardcover_keeps_book_order_witness :
  ∃ merged,
    Merger.combine_goodreads_and_hardcover
      (Frame Samples.some_books) (Frame Samples.unique_genres) = Return merged ∧
    book <$> merged = Samples.some_books.
Proof.
  apply combine_goodreads_and_hardcover_keeps_book_order. apply NoDup_singleton.
Defined.

(** X4.  Every row of the merged frame is accounted for.  Either it is a
    book whose identifier the genre table does not hold, with absent
    [external_id] and [tags]; or it pairs a book with a genre row of the
    genre table that has the book's identifier, and carries that row's
    identifier and tags.  A genre row whose identifier no book has appears
    nowhere. *)
Theorem combine_goodreads_and_hardcover_row_origin
    (goodreads_df : DataFrame Book) (hardcover_df : DataFrame Genre)
    (merged : list Merged) (m : Merged) :
  Merger.combine_goodreads_and_hardcover goodreads_df hardcover_df = Return merged →
  m ∈ merged →
  book m ∈ frame_rows goodreads_df ∧
  (((goodreads_id (book m) ∉ external_id <$> frame_rows hardcover_df) ∧
    merged_external_id m = None ∧ merged_tags m = None) ∨
   (∃ g, g ∈ frame_rows hardcover_df ∧ external_id g = goodreads_id (book m) ∧
         merged_external_id m = goodreads_id (book m) ∧ merged_tags m = Some (tags g))).
Proof.
  intros (_ & _ & ->)%MergerFacts.combine_Return (b & Hb & Hm)%MergerFacts.combine_elem.
  pose proof (MergerFacts.merge_row_book _ _ _ Hm) as Hbook. rewrite Hbook.
  split; [done|].
  destruct (MergerMore.merge_row_origin _ _ _ Hm) as [[-> Hnil]|(g & Hg & Hk & ->)].
  - left. split; [|done]. by apply MergerMore.partners_nil_absent.
  - right. exists g. by rewrite <- Hk.
Qed.

Lemma combine_goodreads_and_hardcover_row_origin_witness :
  let m := {| book := Samples.a_book "Emma" (Some "6969");
              merged_external_id := None; merged_tags := None |} in
  book m ∈ Samples.some_books ∧
  (((goodreads_id (book m) ∉ external_id <$> Samples.some_genres) ∧
    merged_external_id m = None ∧ merged_tags m = None) ∨
   (∃ g, g ∈ Samples.some_genres ∧ external_id g = goodreads_id (book m) ∧
         merged_external_id m = goodreads_id (book m) ∧ merged_tags m = Some (tags g))).
Proof.
  apply (combine_goodreads_and_hardcover_row_origin
           (Frame Samples.some_books) (pd_DataFrame Samples.some_genres)
           (Merger.left_join Samples.some_books Samples.some_genres)).
  - reflexivity.
  - apply list_elem_of_In. vm_compute. right; right; left. reflexivity.
Defined.

(** X5.  On frames that have their key column the merge is the join of the
    two tables, identifier by identifier.  The output has at least as many
    rows as the book table.  Its rows with identifier [k] are: when no genre
    row carries [k], the book rows with [k], each once, in order, with
    absent [external_id] and [tags]; otherwise the cross-product, each book
    row with [k], in order, paired with each genre row with [k], in order,
    and carrying that row's identifier and tags. *)
Theorem combine_goodreads_and_hardcover_cross_product
    (goodreads_df : list Book) (hardcover_df : list Genre) :
  ∃ merged,
    Merger.combine_goodreads_and_hardcover (Frame goodreads_df) (Frame hardcover_df) =
      Return merged ∧
    (length goodreads_df ≤ length merged)%nat ∧
    ∀ k,
      let books_k := filter (λ b, goodreads_id b = k) goodreads_df in
      let genres_k := filter (λ g, external_id g = k) hardcover_df in
      let merged_k := filter (λ m, goodreads_id (book m) = k) merged in
      (genres_k = [] →
         merged_k =
           (λ b, {| book := b; merged_external_id := None; merged_tags := None |})
             <$> books_k) ∧
      (genres_k ≠ [] →
         merged_k =
           books_k ≫= (λ b,
             (λ g, {| book := b; merged_external_id := external_id g;
                      merged_tags := Some (tags g) |}) <$> genres_k) ∧
         length merged_k = (length books_k * length genres_k)%nat).
Proof.
  exists (Merger.left_join goodreads_df hardcover_df). split; [done|]. split.
  - apply MergerFacts.combine_length_ge.
  - intros k books_k genres_k merged_k. subst books_k genres_k merged_k. split.
    + intros Hk. by apply MergerFacts.filter_combine_unmatched.
    + intros Hk. split.
      * by apply MergerFacts.filter_combine_matched.
      * rewrite MergerFacts.filter_combine_matched by done.
        apply MergerFacts.product_length.
Qed.

Lemma combine_goodreads_and_hardcover_cross_product_witness :
  ∃ merged,
    Merger.combine_goodreads_and_hardcover
      (Frame Samples.some_books) (Frame Samples.some_genres) = Return merged ∧
    length (filter (λ m, goodreads_id (book m) = Some "234225") merged) = 4%nat ∧
    filter (λ m, goodreads_id (book m) = Some "6969") merged =
      [{| book := Samples.a_book "Emma" (Some "6969");
          merged_external_id := None; merged_tags := None |}].
Proof.
  destruct (combine_goodreads_and_hardcover_cross_product
              Samples.some_books Samples.some_genres) as (merged & Hret & _ & Hk).
  exists merged. split; [exact Hret|]. split.
  - destruct (Hk (Some "234225")) as [_ Hcross].
    destruct Hcross as [_ Hlen]; [discriminate|]. exact Hlen.
  - destruct (Hk (Some "6969")) as [Hnone _]. exact (Hnone eq_refl).
Defined.

(** ** Profile scraper *)

Module ProfileMore.
Import PyStr Profile Lookups.

Lemma remove_char_without c s : without c (remove_char c s) = true.
Proof.
  induction s as [|a s IH]; [done|]. simpl.
  destruct (Ascii.eqb a c) eqn:Hc; [done|]. unfold without in *. simpl.
  by rewrite Hc, IH.
Qed.

(** A guarded subscript returns, or lets the [KeyError] of a missing
    attribute through. *)
Lemma guarded_subscript {A} (f : string → A) (d : A) soup name attrs key :
  (has_attribute soup name attrs key ∧
   ∃ v, try_except (x ← getitem (soup_find soup name attrs) key; mret (f x)) TypeError d =
          Return v) ∨
  (¬ has_attribute soup name attrs key ∧
   try_except (x ← getitem (soup_find soup name attrs) key; mret (f x)) TypeError d =
     Raise KeyError).
Proof.
  unfold has_attribute. destruct (soup_find soup name attrs) as [t|]; simpl.
  - destruct (tag_attrs t !! key) as [v|] eqn:Hv; simpl.
    + left. split; [|by eexists]. intros t' [= <-]. by rewrite Hv.
    + right. split; [|done]. intros H. destruct (H t eq_refl) as [v Hv'].
      by rewrite Hv in Hv'.
  - left. split; [done | by eexists].
Qed.

Lemma meta_content_outcome soup property :
  (has_attribute soup "meta" (Some ("property", property)) "content" ∧
   ∃ v, meta_content soup property = Return v) ∨
  (¬ has_attribute soup "meta" (Some ("property", property)) "content" ∧
   meta_content soup property = Raise KeyError).
Proof.
  unfold meta_content, has_attribute.
  destruct (soup_find soup "meta" (Some ("property", property))) as [t|]; simpl.
  - destruct (tag_attrs t !! "content") as [v|] eqn:Hv; simpl.
    + left. split; [|by eexists]. intros t' [= <-]. by rewrite Hv.
    + right. split; [|done]. intros H. destruct (H t eq_refl) as [v Hv'].
      by rewrite Hv in Hv'.
  - left. split; [done | by eexists].
Qed.

Section Scraper.
Variable re_search : string → string → option string.

Lemma books_shelved_returns soup :
  ∃ v, try_except
         (title ← get_text (soup_find soup "title" None);
          g ← group1 (re_search (count_pattern +:+ "\s+books") title);
          mret (remove_char "," g)) AttributeError "" = Return v ∧
       without "," v = true.
Proof.
  destruct (soup_find soup "title" None) as [t|]; simpl; [|by eexists].
  destruct (re_search _ (tag_text t)); simpl; [|by eexists].
  eexists. split; [done|]. apply remove_char_without.
Qed.

Lemma count_in_without pattern text :
  ∃ v, count_in re_search pattern text = Return v ∧ without "," v = true.
Proof.
  unfold count_in. destruct (re_search pattern text) as [g|]; simpl; [|by eexists].
  eexists. split; [done|]. apply remove_char_without.
Qed.

Lemma friends_returns text :
  ∃ v, try_except (group1 (re_search " Friends \((\d+)\)" text)) AttributeError "" = Return v.
Proof. destruct (re_search _ text); simpl; by eexists. Qed.

(** The outcome of the whole scraper, with its fields. *)
Lemma get_user_info_outcome soup :
  (lookups_succeed soup ∧
   ∃ user_id full_name first_name last_name username books_shelved friends books_read
      currently_reading_count to_read_count,
     get_user_info re_search soup =
       Return {[ "user_id" := user_id;
                 "full_name" := full_name;
                 "first_name" := first_name;
                 "last_name" := last_name;
                 "username" := username;
                 "books_shelved" := books_shelved;
                 "number_of_friends" := friends;
                 "books_read" := books_read;
                 "currently_reading_count" := currently_reading_count;
                 "to_read_count" := to_read_count ]} ∧
     without "," books_shelved = true ∧ without "," books_read = true ∧
     without "," currently_reading_count = true ∧ without "," to_read_count = true) ∨
  (¬ lookups_succeed soup ∧ get_user_info re_search soup = Raise KeyError).
Proof.
  unfold get_user_info, lookups_succeed.
  destruct (guarded_subscript id_of_link "" soup "link" (Some ("rel", "canonical")) "href")
    as [[H1 [v1 ->]]|[H1 ->]]; cbn [mbind result_bind];
    [|right; split; [tauto | done]].
  destruct (books_shelved_returns soup) as (v2 & -> & Hv2). cbn [mbind result_bind].
  destruct (count_in_without ("read\s*\(.*?" +:+ count_pattern +:+ "\)") (soup_text soup))
    as (v3 & -> & Hv3). cbn [mbind result_bind].
  destruct (count_in_without ("currently-reading&lrm;\s*\(" +:+ count_pattern +:+ "\)")
              (soup_text soup)) as (v4 & -> & Hv4). cbn [mbind result_bind].
  destruct (count_in_without ("to-read&lrm;\s*\(" +:+ count_pattern +:+ "\)")
              (soup_text soup)) as (v5 & -> & Hv5). cbn [mbind result_bind].
  destruct (meta_content_outcome soup "og:title") as [[H6 [v6 ->]]|[H6 ->]];
    cbn [mbind result_bind]; [|right; split; [tauto | done]].
  destruct (meta_content_outcome soup "profile:first_name") as [[H7 [v7 ->]]|[H7 ->]];
    cbn [mbind result_bind]; [|right; split; [tauto | done]].
  destruct (meta_content_outcome soup "profile:last_name") as [[H8 [v8 ->]]|[H8 ->]];
    cbn [mbind result_bind]; [|right; split; [tauto | done]].
  destruct (meta_content_outcome soup "profile:username") as [[H9 [v9 ->]]|[H9 ->]];
    cbn [mbind result_bind]; [|right; split; [tauto | done]].
  destruct (friends_returns (soup_text soup)) as [v10 ->]. cbn [mbind result_bind].
  left. split; [done|].
  unfold mret, result_ret.
  exists v1, v6, v7, v8, v9, v2, v10, v3, v4, v5. split_and!; [reflexivity | done..].
Qed.
End Scraper.

(** *** [split] on a separator *)

Lemma split_on_nonempty sep s : split_on sep s ≠ [].
Proof.
  destruct s as [|c s]; [done|]. simpl.
  destruct (split_on sep s); [done|]. by destruct (Ascii.eqb c sep).
Qed.

Lemma split_on_pieces (P : ascii → bool) sep s :
  all_chars P s = true → Forall (λ w, all_chars P w = true) (split_on sep s).
Proof.
  induction s as [|c s IH]; [by repeat constructor|].
  intros [Hc Hs]%andb_prop. specialize (IH Hs). simpl.
  destruct (split_on sep s) as [|w ws]; [by repeat constructor; simpl; rewrite Hc|].
  apply Forall_cons in IH as [Hw Hws].
  destruct (Ascii.eqb c sep); repeat constructor; try done. simpl. by rewrite Hc, Hw.
Qed.

Lemma split_on_without sep s : Forall (λ w, without sep w = true) (split_on sep s).
Proof.
  induction s as [|c s IH]; [by repeat constructor|]. simpl.
  pose proof (split_on_nonempty sep s) as Hne.
  destruct (split_on sep s) as [|w ws]; [done|].
  apply Forall_cons in IH as [Hw Hws].
  destruct (Ascii.eqb c sep) eqn:Hc; repeat constructor; try done.
  unfold without in *. simpl. by rewrite Hc, Hw.
Qed.

Lemma split_on_plain sep s : without sep s = true → split_on sep s = [s].
Proof.
  induction s as [|c s IH]; [done|]. intros [Hc Hs]%andb_prop.
  apply negb_true_iff in Hc. simpl. by rewrite (IH Hs), Hc.
Qed.

Lemma split_on_head sep a rest :
  without sep a = true → head (split_on sep (a +:+ String sep rest)) = Some a.
Proof.
  induction a as [|c a IH]; intros Ha.
  - rewrite PyStrFacts.app_empty_l. simpl.
    pose proof (split_on_nonempty sep rest).
    destruct (split_on sep rest); [done|]. by rewrite Ascii.eqb_refl.
  - apply andb_prop in Ha as [Hc Ha]. apply negb_true_iff in Hc.
    rewrite PyStrFacts.app_cons. simpl. specialize (IH Ha).
    destruct (split_on sep (a +:+ String sep rest)) as [|w ws]; [done|].
    rewrite Hc. simpl in *. by simplify_eq.
Qed.

Lemma split_on_last sep pre rest :
  last (split_on sep (pre +:+ String sep rest)) = last (split_on sep rest).
Proof.
  induction pre as [|c pre IH].
  - rewrite PyStrFacts.app_empty_l. simpl.
    pose proof (split_on_nonempty sep rest).
    destruct (split_on sep rest) as [|w ws]; [done|]. by rewrite Ascii.eqb_refl.
  - rewrite PyStrFacts.app_cons. simpl.
    assert (∃ w x ws, split_on sep (pre +:+ String sep rest) = w :: x :: ws) as (w & x & ws & E).
    { clear IH. induction pre as [|d pre IH].
      - rewrite PyStrFacts.app_empty_l. simpl.
        pose proof (split_on_nonempty sep rest).
        destruct (split_on sep rest) as [|w ws]; [done|].
        rewrite Ascii.eqb_refl. by eexists _, _, _.
      - rewrite PyStrFacts.app_cons. simpl. destruct IH as (w & x & ws & ->).
        destruct (Ascii.eqb d sep); by eexists _, _, _. }
    rewrite E in *. by destruct (Ascii.eqb c sep).
Qed.

End ProfileMore.

(** X6.  [get_user_info] has two outcomes.  When each of its five
    subscripts (the canonical link's [href] and the [content] of the four
    [meta] elements) finds its attribute on the element found, or finds no
    element, it returns a record with exactly the ten fields, and the four
    counts it read with a thousands separator hold no comma.  Otherwise it
    raises [KeyError]; no other exception leaves the function. *)
Theorem get_user_info_returns_or_key_error
    (re_search : string → string → option string) (soup : Profile.BeautifulSoup) :
  (Lookups.lookups_succeed soup ∧
   ∃ info, Profile.get_user_info re_search soup = Return info ∧
           dom info = Profile.fields ∧
           ∀ k, k ∈ ["books_shelved"; "books_read"; "currently_reading_count"; "to_read_count"] →
                ∃ v, info !! k = Some v ∧ Lookups.without "," v = true) ∨
  (¬ Lookups.lookups_succeed soup ∧
   Profile.get_user_info re_search soup = Raise KeyError).
Proof.
  destruct (ProfileMore.get_user_info_outcome re_search soup)
    as [[Hok (v1 & v2 & v3 & v4 & v5 & v6 & v7 & v8 & v9 & v10 & -> & H6 & H8 & H9 & H10)]|Hbad];
    [left|by right].
  split; [done|]. eexists. split; [done|]. split.
  - unfold Profile.fields. rewrite !dom_insert_L, dom_singleton_L. set_solver.
  - intros k Hk. rewrite !elem_of_cons, elem_of_nil in Hk.
    destruct Hk as [->|[->|[->|[->|[]]]]]; eexists; (split; [by simplify_map_eq|done]).
Qed.

Lemma get_user_info_returns_or_key_error_witness :
  (∃ info, Profile.get_user_info MoreSamples.finds_count MoreSamples.full_page = Return info ∧
           dom info = Profile.fields) ∧
  Profile.get_user_info MoreSamples.finds_count Samples.page_without_content = Raise KeyError.
Proof.
  split.
  - destruct (get_user_info_returns_or_key_error MoreSamples.finds_count MoreSamples.full_page)
      as [[_ (info & Hinfo & Hdom & _)]|[_ Hraise]].
    + by exists info.
    + exfalso. revert Hraise. vm_compute. discriminate.
  - destruct (get_user_info_returns_or_key_error
                MoreSamples.finds_count Samples.page_without_content)
      as [[_ (info & Hinfo & _)]|[_ Hraise]].
    + exfalso. revert Hinfo. vm_compute. discriminate.
    + exact Hraise.
Defined.

(** X7.  A page on which nothing is found (no element at all, and no
    pattern matching its text) gives no error: the scraper returns the record
    whose ten fields are all the empty string. *)
Theorem get_user_info_of_blank_page
    (re_search : string → string → option string) (soup : Profile.BeautifulSoup) :
  Profile.soup_tags soup = [] →
  (∀ pattern, re_search pattern (Profile.soup_text soup) = None) →
  Profile.get_user_info re_search soup = Return (gset_to_gmap "" Profile.fields).
Proof.
  destruct soup as [tags text]. simpl. intros -> Hre.
  unfold Profile.get_user_info, Profile.count_in, Profile.meta_content, Profile.soup_find.
  simpl. rewrite !Hre. vm_compute. reflexivity.
Qed.

Lemma get_user_info_of_blank_page_witness :
  Profile.get_user_info Samples.no_match Samples.empty_page =
    Return (gset_to_gmap "" Profile.fields).
Proof.
  apply get_user_info_of_blank_page; [reflexivity | intros pattern; reflexivity].
Defined.

Module LinkFacts.
Import PyStr Profile Lookups ProfileMore.

Lemma all_chars_app P s t : all_chars P (s +:+ t) = all_chars P s && all_chars P t.
Proof.
  induction s as [|c s IH]; [done|]. rewrite PyStrFacts.app_cons. simpl.
  by rewrite IH, andb_assoc.
Qed.

Lemma id_of_link_path base tail :
  without "/" tail = true →
  id_of_link (base +:+ String "/" tail) = default "" (head (split_on "-" tail)).
Proof.
  intros Htail. unfold id_of_link.
  rewrite split_on_last. by rewrite (split_on_plain "/" tail).
Qed.

End LinkFacts.

(** X8.  From a canonical link that ends in [/<id>-<slug>], or in [/<id>],
    the scraper reads [<id>]: the text between the last slash and the first
    hyphen after it. *)
Theorem id_of_link_reads_the_id (base id_ slug : string) :
  Lookups.without "/" id_ = true → Lookups.without "-" id_ = true →
  (Lookups.without "/" slug = true →
     Profile.id_of_link (base +:+ "/" +:+ id_ +:+ "-" +:+ slug) = id_) ∧
  Profile.id_of_link (base +:+ "/" +:+ id_) = id_.
Proof.
  intros Hslash Hhyphen. split.
  - intros Hslug.
    change (base +:+ "/" +:+ id_ +:+ "-" +:+ slug)
      with (base +:+ String "/" (id_ +:+ String "-" slug)).
    rewrite LinkFacts.id_of_link_path.
    + by rewrite ProfileMore.split_on_head.
    + unfold Lookups.without in *. rewrite LinkFacts.all_chars_app. simpl.
      by rewrite Hslash, Hslug.
  - change (base +:+ "/" +:+ id_) with (base +:+ String "/" id_).
    rewrite LinkFacts.id_of_link_path by done.
    by rewrite (ProfileMore.split_on_plain "-" id_).
Qed.

Lemma id_of_link_reads_the_id_witness :
  Profile.id_of_link "https://www.goodreads.com/user/show/42944663-ben-wallace" = "42944663" ∧
  Profile.id_of_link "https://www.goodreads.com/user/show/42944663" = "42944663".
Proof.
  destruct (id_of_link_reads_the_id "https://www.goodreads.com/user/show" "42944663"
              "ben-wallace" eq_refl eq_refl) as [Hslug Hplain].
  split; [exact (Hslug eq_refl) | exact Hplain].
Defined.

(** X9.  Whatever the canonical link is, the [user_id] read from it holds
    neither a slash nor a hyphen. *)
Theorem id_of_link_has_no_separator (canonical_link : string) :
  Lookups.without "/" (Profile.id_of_link canonical_link) = true ∧
  Lookups.without "-" (Profile.id_of_link canonical_link) = true.
Proof.
  unfold Profile.id_of_link.
  set (piece := default "" (last (PyStr.split_on "/" canonical_link))).
  assert (Lookups.without "/" piece = true) as Hpiece.
  { subst piece. destruct (last (PyStr.split_on "/" canonical_link)) as [w|] eqn:Hlast; [|done].
    apply last_Some_elem_of in Hlast.
    pose proof (ProfileMore.split_on_without "/" canonical_link) as Hall.
    rewrite Forall_forall in Hall. by apply Hall. }
  destruct (head (PyStr.split_on "-" piece)) as [w|] eqn:Hhead; [|done].
  apply head_Some_elem_of in Hhead. simpl. split.
  - pose proof (ProfileMore.split_on_pieces _ "-" piece Hpiece) as Hall.
    rewrite Forall_forall in Hall. by apply Hall.
  - pose proof (ProfileMore.split_on_without "-" piece) as Hall.
    rewrite Forall_forall in Hall. by apply Hall.
Qed.

(** ** More of the book list parser *)

Module ColumnsFacts.
Import PyStr PyStrFacts Parser Columns Lookups RatingFacts.

Lemma extract_digits_none s : no_digit s = true → extract_digits s = None.
Proof.
  induction s as [|c s IH]; [done|]. intros [Hc Hs]%andb_prop.
  apply negb_true_iff in Hc. simpl. by rewrite Hc, IH.
Qed.

Lemma remove_char_app c s t : remove_char c (s +:+ t) = remove_char c s +:+ remove_char c t.
Proof.
  induction s as [|a s IH]; [done|]. rewrite app_cons. simpl.
  destruct (Ascii.eqb a c); by rewrite ?app_cons, IH.
Qed.

Lemma remove_char_keeps (P : ascii → bool) c s :
  all_chars P s = true → all_chars P (remove_char c s) = true.
Proof.
  induction s as [|a s IH]; [done|]. intros [Ha Hs]%andb_prop. simpl.
  destruct (Ascii.eqb a c); [by apply IH|]. simpl. by rewrite Ha, IH.
Qed.

Lemma remove_comma_digits s :
  digits_and_commas s = true → all_digits (remove_char "," s) = true.
Proof.
  induction s as [|a s IH]; [done|]. intros [Ha Hs]%andb_prop. simpl.
  destruct (Ascii.eqb a ",") eqn:Hc; [by apply IH|].
  rewrite orb_false_r in Ha. unfold all_digits in *. simpl. by rewrite Ha, IH.
Qed.

Lemma to_numeric_digits ds :
  ds ≠ "" → to_numeric (Some ds) = parse_digits 0 ds.
Proof. by destruct ds. Qed.

Lemma digit_value_zero c :
  is_digit c = true → (0 <? N_of_ascii c - 48)%N = negb (Ascii.eqb c "0").
Proof.
  unfold is_digit. intros [Hlo Hhi]%andb_prop.
  apply N.leb_le in Hlo. apply N.leb_le in Hhi.
  destruct (Ascii.eqb_spec c "0") as [->|Hne]; [done|]. simpl.
  apply N.ltb_lt. assert (N_of_ascii c ≠ 48%N); [|lia].
  intros Heq. apply Hne. rewrite <- (ascii_N_embedding c), Heq. reflexivity.
Qed.

Lemma parse_digits_positive ds : ∀ acc,
  all_digits ds = true →
  ∃ n, parse_digits acc ds = Some n ∧ (0 <? n)%N = (0 <? acc)%N || has_nonzero ds.
Proof.
  unfold has_nonzero.
  induction ds as [|c ds IH]; intros acc Hds.
  - exists acc. split; [done|]. simpl. by rewrite orb_false_r.
  - apply andb_prop in Hds as [Hc Hds]. simpl. rewrite Hc.
    destruct (IH (10 * acc + (N_of_ascii c - 48))%N Hds) as (n & -> & Hn).
    exists n. split; [done|]. rewrite Hn, negb_andb, orb_assoc. f_equal.
    rewrite <- (digit_value_zero c Hc).
    destruct (0 <? acc)%N eqn:Ha, (0 <? N_of_ascii c - 48)%N eqn:Hd; simpl;
      rewrite ?N.ltb_lt, ?N.ltb_ge in *; lia.
Qed.

(** *** Trimmed text *)

Lemma rstrip_ends_clean s : ends_clean (rstrip s).
Proof.
  unfold ends_clean. induction s as [|c s IH]; [done|]. simpl.
  destruct (rstrip s) as [|d r] eqn:Hr.
  - destruct (is_space c) eqn:Hc; [done|]. simpl. done.
  - simpl in *. by destruct (last_char r).
Qed.

Lemma strip_trimmed s : trimmed (strip s).
Proof. split; [apply strip_starts_clean | apply rstrip_ends_clean]. Qed.

Lemma rstrip_clean s : ends_clean s → rstrip s = s.
Proof.
  unfold ends_clean. induction s as [|c s IH]; [done|]. simpl.
  destruct (last_char s) as [d|] eqn:Hlast.
  - intros Hd. rewrite IH by done. by destruct s.
  - intros Hc. destruct s as [|e s]; [by simpl; rewrite Hc|].
    simpl in Hlast. by destruct (last_char s).
Qed.

Lemma strip_fixed s : trimmed s → strip s = s.
Proof.
  intros [Hstart Hend]. unfold strip. rewrite lstrip_clean by done. by apply rstrip_clean.
Qed.

(** *** The date label *)

Lemma lstrip_spaces ws s :
  all_space ws = true → starts_clean s → lstrip (ws +:+ s) = s.
Proof.
  induction ws as [|c ws IH]; intros Hws Hs.
  - by apply lstrip_clean.
  - apply andb_prop in Hws as [Hc Hws]. rewrite app_cons. simpl. rewrite Hc. by apply IH.
Qed.

Lemma until_newline_line s : no_newline s = true → until_newline s = s.
Proof.
  induction s as [|c s IH]; [done|]. intros [Hc Hs]%andb_prop.
  apply negb_true_iff in Hc. simpl. by rewrite Hc, IH.
Qed.

Lemma find_prefix label s : find label (label +:+ s) = Some 0%nat.
Proof. by rewrite find_eq, startswith_app. Qed.

End ColumnsFacts.

(** X10.  The [goodreads_id] of a row is the leftmost run of digits of the
    title link.  So it is a non-empty string of decimal digits whenever it is
    present; for a link made of a digit-free path, the identifier and a rest
    that does not go on with a digit it is that identifier; and it is absent
    when the link holds no digit or the cell has no link. *)
Theorem goodreads_id_of_link :
  (∀ link id_, Columns.goodreads_id_of link = Some id_ →
     id_ ≠ "" ∧ PyStr.all_digits id_ = true) ∧
  (∀ path id_ rest,
     PyStr.no_digit path = true → id_ ≠ "" → PyStr.all_digits id_ = true →
     Parser.digit_run rest = "" →
     Columns.goodreads_id_of (Some (path +:+ id_ +:+ rest)) = Some id_) ∧
  (∀ link, PyStr.no_digit link = true → Columns.goodreads_id_of (Some link) = None) ∧
  Columns.goodreads_id_of None = None.
Proof.
  split_and!; [| | |done].
  - intros [link|] id_ H; [|done]. by apply (RatingFacts.extract_digits_Some link).
  - intros path id_ rest Hpath Hne Hid Hrest. by apply RatingFacts.extract_digits_run.
  - intros link Hlink. by apply ColumnsFacts.extract_digits_none.
Qed.

Lemma goodreads_id_of_link_witness :
  Columns.goodreads_id_of (Some "/book/show/5907.The_Hobbit") = Some "5907" ∧
  Columns.goodreads_id_of (Some "/book/show/") = None ∧
  PyStr.all_digits "5907" = true.
Proof.
  destruct goodreads_id_of_link as (Hdigits & Hid & Hnone & _).
  split_and!.
  - apply (Hid "/book/show/" "5907" ".The_Hobbit"); [reflexivity | discriminate | reflexivity..].
  - apply Hnone. reflexivity.
  - apply (Hdigits (Some "/book/show/5907.The_Hobbit") "5907"). reflexivity.
Defined.

(** X11.  The ratings count is read through its thousands separators: for a
    cell made of a digit-free label and then a number written with digits and
    commas, the count is the number with the commas taken out.  The page
    count is read without that step, so a comma ends it: of [1,234] only the
    [1] is read. *)
Theorem total_ratings_reads_through_commas :
  (∀ label number,
     PyStr.no_digit label = true → Columns.digits_and_commas number = true →
     PyStr.remove_char "," number ≠ "" →
     Columns.total_ratings_of (Some (label +:+ number)) =
       Parser.parse_digits 0 (PyStr.remove_char "," number) ∧
     is_Some (Columns.total_ratings_of (Some (label +:+ number)))) ∧
  (∀ label thousands rest,
     PyStr.no_digit label = true → thousands ≠ "" → PyStr.all_digits thousands = true →
     Columns.pages_of (Some (label +:+ thousands +:+ "," +:+ rest)) =
       Parser.parse_digits 0 thousands).
Proof.
  split.
  - intros label number Hlabel Hnumber Hne.
    assert (Columns.total_ratings_of (Some (label +:+ number)) =
            Parser.parse_digits 0 (PyStr.remove_char "," number)) as Heq.
    { unfold Columns.total_ratings_of. simpl.
      rewrite ColumnsFacts.remove_char_app.
      rewrite <- (PyStrFacts.app_empty_r (PyStr.remove_char "," number)) at 1.
      rewrite RatingFacts.extract_digits_run; try done.
      - by apply ColumnsFacts.to_numeric_digits.
      - by apply ColumnsFacts.remove_char_keeps.
      - by apply ColumnsFacts.remove_comma_digits. }
    split; [done|]. rewrite Heq. apply RatingFacts.parse_digits_total.
    by apply ColumnsFacts.remove_comma_digits.
  - intros label thousands rest Hlabel Hne Hdigits.
    unfold Columns.pages_of. simpl.
    rewrite RatingFacts.extract_digits_run by done.
    by apply ColumnsFacts.to_numeric_digits.
Qed.

Lemma total_ratings_reads_through_commas_witness :
  Columns.total_ratings_of (Some "ratings 1,234,567") = Some 1234567%N ∧
  Columns.pages_of (Some "num pages 1,234 pp") = Some 1%N.
Proof.
  destruct total_ratings_reads_through_commas as [Hratings Hpages].
  split.
  - destruct (Hratings "ratings " "1,234,567" eq_refl eq_refl) as [Heq _]; [discriminate|].
    exact Heq.
  - exact (Hpages "num pages " "1" "234 pp" eq_refl ltac:(discriminate) eq_refl).
Defined.

(** X12.  In a votes cell made of a digit-free label, a run of digits and
    a rest that does not go on with a digit, [read?] is true exactly when one
    of the digits is not zero: [0], [00] and [000] all give false. *)
Theorem read_flag_of_digits (label digits rest : string) :
  PyStr.no_digit label = true → digits ≠ "" → PyStr.all_digits digits = true →
  Parser.digit_run rest = "" →
  Parser.read_flag (Some (label +:+ digits +:+ rest)) = Columns.has_nonzero digits.
Proof.
  intros Hlabel Hne Hdigits Hrest. unfold Parser.read_flag, Parser.votes_count. simpl.
  rewrite RatingFacts.extract_digits_run by done.
  rewrite ColumnsFacts.to_numeric_digits by done.
  destruct (ColumnsFacts.parse_digits_positive digits 0 Hdigits) as (n & -> & Hn).
  exact Hn.
Qed.

Lemma read_flag_of_digits_witness :
  Parser.read_flag (Some "# times read 000") = false ∧
  Parser.read_flag (Some "# times read 010 times") = true.
Proof.
  split.
  - exact (read_flag_of_digits "# times read " "000" "" eq_refl ltac:(discriminate)
             eq_refl eq_refl).
  - exact (read_flag_of_digits "# times read " "010" " times" eq_refl ltac:(discriminate)
             eq_refl eq_refl).
Defined.

(** X13.  What the parser returns as a title, as an author and as a rating
    phrase has whitespace at neither end, and text with whitespace at neither
    end is what [strip] leaves as it is. *)
Theorem parsed_text_is_trimmed :
  (∀ cell, Columns.trimmed (Parser.parse_title cell)) ∧
  (∀ cell, Columns.trimmed (Parser.parse_author cell)) ∧
  (∀ cell phrase, Parser.rating_phrase cell = Some phrase → Columns.trimmed phrase) ∧
  (∀ s, Columns.trimmed s → PyStr.strip s = s).
Proof.
  split_and!.
  - intros cell. apply ColumnsFacts.strip_trimmed.
  - intros cell. apply ColumnsFacts.strip_trimmed.
  - intros [s|] phrase; [|done]. unfold Parser.rating_phrase. simpl.
    destruct (Parser.rating_search s) as [g|]; [|done]. simpl.
    intros [= <-]. apply ColumnsFacts.strip_trimmed.
  - apply ColumnsFacts.strip_fixed.
Qed.

Lemma parsed_text_is_trimmed_witness :
  Columns.trimmed "really liked it" ∧ PyStr.strip "The Hobbit" = "The Hobbit".
Proof.
  destruct parsed_text_is_trimmed as (_ & _ & Hphrase & Hfixed).
  split.
  - apply (Hphrase (Some "Ben's rating   really liked it  ")). reflexivity.
  - apply Hfixed. split; reflexivity.
Defined.

(** ** More of the date normalizer *)

(** X14.  [format_and_convert_date] keeps the length of the series and
    works cell by cell.  A cell that begins with the label, then whitespace,
    then one line of text gives what the date normalizer makes of that text;
    a cell in which the label does not occur, and an absent cell, give
    [NaT], whatever date the cell holds. *)
Theorem format_and_convert_date_by_cell
    (to_datetime : string → option Timestamp) (series : list (option string))
    (label : string) :
  length (Dates.format_and_convert_date to_datetime series label) = length series ∧
  (∀ i ws text,
     series !! i = Some (Some (label +:+ ws +:+ text)) →
     Columns.all_space ws = true → PyStr.starts_clean text → PyStr.no_newline text = true →
     Dates.format_and_convert_date to_datetime series label !! i =
       Some (Dates.convert_date to_datetime (Some text))) ∧
  (∀ i cell,
     series !! i = Some (Some cell) → PyStr.find label cell = None →
     Dates.format_and_convert_date to_datetime series label !! i = Some None) ∧
  (∀ i, series !! i = Some None →
     Dates.format_and_convert_date to_datetime series label !! i = Some None).
Proof.
  unfold Dates.format_and_convert_date. split_and!.
  - apply length_fmap.
  - intros i ws text Hi Hws Hclean Hline. rewrite list_lookup_fmap, Hi. simpl.
    unfold Dates.extract_after. simpl. rewrite ColumnsFacts.find_prefix. simpl.
    rewrite PyStrFacts.drop_app, ColumnsFacts.lstrip_spaces by done.
    by rewrite ColumnsFacts.until_newline_line.
  - intros i cell Hi Hfind. rewrite list_lookup_fmap, Hi. simpl.
    unfold Dates.extract_after. simpl. by rewrite Hfind.
  - intros i Hi. by rewrite list_lookup_fmap, Hi.
Qed.

Lemma format_and_convert_date_by_cell_witness :
  Dates.format_and_convert_date Samples.read_date
    [Some "date read  March 2020"; Some "March 3, 2020"; None] "date read" =
    [Some {| year := 2020; month := 3; day := 1 |}; None; None].
Proof.
  destruct (format_and_convert_date_by_cell Samples.read_date
              [Some "date read  March 2020"; Some "March 3, 2020"; None] "date read")
    as (Hlen & Hcell & Hnolabel & Habsent).
  apply list_eq. intros [|[|[|i]]].
  - rewrite (Hcell 0%nat "  " "March 2020"); reflexivity.
  - rewrite (Hnolabel 1%nat "March 3, 2020"); reflexivity.
  - rewrite (Habsent 2%nat); reflexivity.
  - reflexivity.
Defined.

(** X15.  The text that reaches the date parser is never the sentinel
    "not set" and never a text of exactly two words: a month-year value has
    got its day by then. *)
Theorem normalize_text_never_month_year (x : option string) (t : string) :
  Dates.normalize_text x = Some t → t ≠ "not set" ∧ length (PyStr.split t) ≠ 2%nat.
Proof.
  destruct x as [s|]; [|done]. unfold Dates.normalize_text, Dates.replace_not_set.
  destruct (decide (s = "not set")) as [->|Hne]; [done|].
  unfold Dates.insert_default_day.
  destruct (PyStr.split s) as [|p0 [|p1 [|p2 ps]]] eqn:Hs; intros [= <-];
    try (split; [done | by rewrite Hs]).
  pose proof (PyStrFacts.split_words s) as Hw. rewrite Hs in Hw.
  apply Forall_cons in Hw as [H0 Hw]. apply Forall_cons in Hw as [H1 _].
  pose proof (PyStrFacts.split_default_day p0 p1 H0 H1) as H3.
  split; [|by rewrite H3]. intros Heq. by rewrite Heq in H3.
Qed.

Lemma normalize_text_never_month_year_witness :
  "March 1, 2020" ≠ "not set" ∧ length (PyStr.split "March 1, 2020") ≠ 2%nat.
Proof.
  apply (normalize_text_never_month_year (Some "March 2020")). reflexivity.
Defined.

(** ** Genre fetcher *)

Module GenresFacts.
Import PyStr Genres.

Lemma traverse_fmap {A B C} (f : B → result C) (g : A → B) (h : A → C) (l : list A) :
  (∀ x, f (g x) = Return (h x)) → traverse f (g <$> l) = Return (h <$> l).
Proof.
  intros Hfg. induction l as [|x l IH]; [done|].
  rewrite !fmap_cons. simpl. by rewrite Hfg, IH.
Qed.

(** The items before the first failure do not save the call. *)
Lemma traverse_raise {A B} (f : A → result B) (pre post : list A) x e :
  (∀ y, y ∈ pre → ∃ v, f y = Return v) → f x = Raise e →
  traverse f (pre ++ x :: post) = Raise e.
Proof.
  intros Hpre Hx. induction pre as [|y pre IH]; simpl.
  - by rewrite Hx.
  - destruct (Hpre y) as [v ->]; [left|]. simpl.
    rewrite IH; [done|]. intros z Hz. apply Hpre. by right.
Qed.

Lemma tag_of_encode name : tag_of (encode_tag name) = Return (JStr name).
Proof.
  unfold tag_of, encode_tag, getitem. rewrite lookup_singleton_eq. simpl.
  by rewrite lookup_singleton_eq.
Qed.

Lemma flatten_entry_encode g : flatten_entry (encode_entry g) = Return (row_of g).
Proof.
  unfold flatten_entry, encode_entry, getitem.
  rewrite lookup_insert_eq. simpl.
  rewrite lookup_insert_ne by done. rewrite lookup_singleton_eq. simpl.
  rewrite lookup_singleton_eq. simpl.
  by rewrite (traverse_fmap tag_of encode_tag JStr (tags g) tag_of_encode).
Qed.

Lemma flatten_response_entries entries :
  flatten_response
    (JDict {[ "data" := JDict {[ "book_mappings" := JList entries ]} ]}) =
    traverse flatten_entry entries.
Proof.
  unfold flatten_response, getitem. rewrite lookup_singleton_eq. simpl.
  by rewrite lookup_singleton_eq.
Qed.

Lemma join_chars P sep items :
  all_chars P sep = true → Forall (λ s, all_chars P s = true) items →
  all_chars P (join sep items) = true.
Proof.
  intros Hsep. induction 1 as [|x items Hx Hitems IH]; [done|].
  destruct items as [|y items]; [done|].
  change (join sep (x :: y :: items)) with (x +:+ sep +:+ join sep (y :: items)).
  rewrite !LinkFacts.all_chars_app. by rewrite Hx, Hsep, IH.
Qed.

Lemma all_chars_weaken (P Q : ascii → bool) s :
  (∀ c, P c = true → Q c = true) → all_chars P s = true → all_chars Q s = true.
Proof.
  intros HPQ. induction s as [|c s IH]; [done|]. intros [Hc Hs]%andb_prop.
  simpl. by rewrite (HPQ c Hc), IH.
Qed.

End GenresFacts.

(** X16.  The genre fetcher reads back what the service lists: for a
    response whose mappings list given identifiers with their tags, it
    returns one row per mapping, in the order of the response, with the
    identifier and the tag names in their order. *)
Theorem get_genres_from_hardcover_reads_response
    (post_query : string → Genres.json) (goodreads_ids : list (option string))
    (genres : list Genre) :
  post_query (Genres.ids_string goodreads_ids) = Genres.encode_response genres →
  Genres.get_genres_from_hardcover post_query goodreads_ids =
    Return (Genres.row_of <$> genres).
Proof.
  intros Hresponse. unfold Genres.get_genres_from_hardcover. rewrite Hresponse.
  unfold Genres.encode_response. rewrite GenresFacts.flatten_response_entries.
  apply GenresFacts.traverse_fmap, GenresFacts.flatten_entry_encode.
Qed.

Lemma get_genres_from_hardcover_reads_response_witness :
  Genres.get_genres_from_hardcover MoreSamples.service [Some "234225"; Some "6969"] =
    Return [{| Genres.row_external_id := Genres.JStr "234225";
               Genres.row_tags := [Genres.JStr "Science fiction"] |};
            {| Genres.row_external_id := Genres.JStr "234225";
               Genres.row_tags := [Genres.JStr "Classics"; Genres.JStr "Fiction"] |}].
Proof.
  apply (get_genres_from_hardcover_reads_response MoreSamples.service
           [Some "234225"; Some "6969"] Samples.some_genres).
  reflexivity.
Defined.

(** X17.  The genre fetcher handles no failure of the response.  A
    response without [data], such as a GraphQL error document, raises
    [KeyError]; and one mapping whose [book] is null makes the whole call
    raise [TypeError], whatever well-formed mappings stand before and after
    it: no row is returned. *)
Theorem get_genres_from_hardcover_failures
    (post_query : string → Genres.json) (goodreads_ids : list (option string)) :
  (∀ d, post_query (Genres.ids_string goodreads_ids) = Genres.JDict d →
        d !! "data" = None →
        Genres.get_genres_from_hardcover post_query goodreads_ids = Raise KeyError) ∧
  (∀ before after x,
     post_query (Genres.ids_string goodreads_ids) =
       Genres.JDict {[ "data" := Genres.JDict {[ "book_mappings" :=
         Genres.JList ((Genres.encode_entry <$> before) ++
                       Genres.JDict {[ "external_id" := x; "book" := Genres.JNull ]} ::
                       (Genres.encode_entry <$> after)) ]} ]} →
     Genres.get_genres_from_hardcover post_query goodreads_ids = Raise TypeError).
Proof.
  split.
  - intros d Hresponse Hdata. unfold Genres.get_genres_from_hardcover.
    rewrite Hresponse. unfold Genres.flatten_response, Genres.getitem. by rewrite Hdata.
  - intros before after x Hresponse. unfold Genres.get_genres_from_hardcover.
    rewrite Hresponse, GenresFacts.flatten_response_entries.
    apply GenresFacts.traverse_raise.
    + intros y (g & -> & _)%list_elem_of_fmap. exists (Genres.row_of g).
      apply GenresFacts.flatten_entry_encode.
    + unfold Genres.flatten_entry, Genres.getitem.
      rewrite lookup_insert_eq. simpl.
      rewrite lookup_insert_ne by done. by rewrite lookup_singleton_eq.
Qed.

Lemma get_genres_from_hardcover_failures_witness :
  Genres.get_genres_from_hardcover MoreSamples.failing_service [Some "234225"] =
    Raise KeyError.
Proof.
  destruct (get_genres_from_hardcover_failures MoreSamples.failing_service [Some "234225"])
    as [Hdata _].
  apply (Hdata {[ "errors" := Genres.JList [Genres.JStr "invalid token"] ]}); reflexivity.
Defined.

(** X18.  The identifier list of the query is built from the parsed link
    identifiers without escaping, and needs none: whatever the links are,
    the list holds only digits, the quotes, commas and spaces it adds, and
    the letters of [nan] for a row without identifier. *)
Theorem ids_string_of_parsed_identifiers (links : list (option string)) :
  PyStr.all_chars Genres.id_list_char
    (Genres.ids_string (Columns.goodreads_id_of <$> links)) = true.
Proof.
  unfold Genres.ids_string. apply GenresFacts.join_chars; [done|].
  rewrite Forall_fmap, Forall_fmap. apply Forall_forall. intros link _. simpl.
  rewrite !LinkFacts.all_chars_app.
  assert (PyStr.all_chars Genres.id_list_char
            (Genres.format_id (Columns.goodreads_id_of link)) = true) as ->; [|done].
  destruct link as [l|]; [|done]. simpl.
  destruct (Parser.extract_digits l) as [id_|] eqn:Hid; [|done]. simpl.
  apply RatingFacts.extract_digits_Some in Hid as [_ Hdigits].
  apply (GenresFacts.all_chars_weaken PyStr.is_digit); [|done].
  intros c Hc. unfold Genres.id_list_char. by rewrite Hc.
Qed.

(** ** The rating and publication patterns *)

Module PatternsFacts.
Import PyStr PyStrFacts Parser Columns Lookups RatingFacts Patterns.

Lemma digit_not_char c a :
  is_digit c = true → is_digit a = false → Ascii.eqb c a = false.
Proof.
  intros Hc Ha. destruct (Ascii.eqb_spec c a) as [->|]; [|done]. congruence.
Qed.

Lemma length_digit_run_app ds rest :
  all_digits ds = true → digit_run rest = "" →
  String.length (digit_run (ds +:+ rest)) = String.length ds.
Proof. intros Hds Hrest. by rewrite digit_run_app, Hrest, app_empty_r. Qed.

Lemma digits_here_app n ds rest :
  all_digits ds = true → digit_run rest = "" →
  digits_here n (ds +:+ rest) = (n <=? String.length ds)%nat.
Proof. intros Hds Hrest. unfold digits_here. by rewrite length_digit_run_app. Qed.

Lemma digits_here_nondigit n c s :
  is_digit c = false → digits_here (S n) (String c s) = false.
Proof. intros Hc. unfold digits_here. simpl. by rewrite Hc. Qed.

Lemma take_app s t : take (String.length s) (s +:+ t) = s.
Proof. induction s as [|c s IH]; [by destruct t|]. rewrite app_cons. simpl. by rewrite IH. Qed.

Lemma nonword_no_digit rest : word_at rest = false → digit_run rest = "".
Proof.
  destruct rest as [|c rest]; [done|]. simpl. unfold is_word_char.
  destruct (is_digit c); [done|]. done.
Qed.

(** *** The decimal pattern *)

Lemma decimal_search_eq s :
  decimal_search s =
    match decimal_at s with
    | Some g => Some g
    | None =>
        match s with
        | EmptyString => None
        | String _ s' => decimal_search s'
        end
    end.
Proof. by destruct s. Qed.

Lemma decimal_at_nondigit c s : is_digit c = false → decimal_at (String c s) = None.
Proof. intros Hc. unfold decimal_at. simpl. by rewrite Hc. Qed.

Lemma decimal_search_skip label s :
  no_digit label = true → decimal_search (label +:+ s) = decimal_search s.
Proof.
  induction label as [|c label IH]; [done|]. intros [Hc Hl]%andb_prop.
  apply negb_true_iff in Hc. rewrite app_cons, decimal_search_eq.
  by rewrite decimal_at_nondigit, IH.
Qed.

Lemma decimal_at_number whole frac rest :
  whole ≠ "" → all_digits whole = true → frac ≠ "" → all_digits frac = true →
  digit_run rest = "" →
  decimal_at (whole +:+ "." +:+ frac +:+ rest) = Some (whole +:+ "." +:+ frac).
Proof.
  intros Hw Hwd Hf Hfd Hrest.
  change ("." +:+ frac +:+ rest) with (String "." (frac +:+ rest)).
  assert (digit_run (whole +:+ String "." (frac +:+ rest)) = whole) as Hrun.
  { rewrite digit_run_app by done. simpl. apply app_empty_r. }
  assert (digit_run (frac +:+ rest) = frac) as Hfrac.
  { by rewrite digit_run_app, Hrest, app_empty_r. }
  unfold decimal_at. cbv zeta. rewrite Hrun.
  destruct whole as [|w whole]; [done|].
  rewrite drop_app, Ascii.eqb_refl, Hfrac.
  by destruct frac.
Qed.

Lemma decimal_at_shape s g :
  decimal_at s = Some g →
  ∃ whole frac, g = whole +:+ "." +:+ frac ∧
    whole ≠ "" ∧ all_digits whole = true ∧ frac ≠ "" ∧ all_digits frac = true.
Proof.
  unfold decimal_at. pose proof (digit_run_digits s) as Hw.
  destruct (digit_run s) as [|w whole] eqn:Hrun; [done|].
  destruct (drop _ s) as [|c rest]; [done|].
  destruct (Ascii.eqb c "."); [|done].
  pose proof (digit_run_digits rest) as Hf.
  destruct (digit_run rest) as [|f frac]; [done|]. intros [= <-].
  by exists (String w whole), (String f frac).
Qed.

Lemma without_drop c n s : without c s = true → without c (drop n s) = true.
Proof.
  revert s. induction n as [|n IH]; intros [|a s]; try done.
  intros [_ Hs]%andb_prop. simpl. by apply IH.
Qed.

Lemma decimal_at_no_point s : without "." s = true → decimal_at s = None.
Proof.
  intros Hs. unfold decimal_at. destruct (digit_run s) as [|w whole]; [done|].
  pose proof (without_drop "." (String.length (String w whole)) s Hs) as Hdrop.
  destruct (drop _ s) as [|c rest]; [done|].
  apply andb_prop in Hdrop as [Hc _]. apply negb_true_iff in Hc. by rewrite Hc.
Qed.

(** *** The publication pattern *)

Lemma pub_search_eq prev s :
  pub_search prev s =
    match pub_at prev s with
    | Some y => Some y
    | None =>
        match s with
        | EmptyString => None
        | String c s' => pub_search (Some c) s'
        end
    end.
Proof. by destruct s. Qed.

Lemma pub_at_nondigit prev c s : is_digit c = false → pub_at prev (String c s) = None.
Proof.
  intros Hc. unfold pub_at, day_then_year_at, year_at, day_attempt, year_attempt.
  cbn [first_success]. rewrite !digits_here_nondigit by done.
  by destruct (boundary prev (String c s)).
Qed.

Lemma pub_search_skip pre : ∀ prev s,
  no_digit pre = true →
  pub_search prev (pre +:+ s) = pub_search (from_option Some prev (last_char pre)) s.
Proof.
  induction pre as [|c pre IH]; intros prev s Hpre; [done|].
  apply andb_prop in Hpre as [Hc Hpre]. apply negb_true_iff in Hc.
  rewrite app_cons, pub_search_eq, pub_at_nondigit by done.
  rewrite IH by done. simpl. by destruct (last_char pre).
Qed.

Lemma pub_at_empty prev : pub_at prev "" = None.
Proof. unfold pub_at, day_then_year_at. by destruct (boundary prev ""). Qed.

Lemma pub_search_none s : ∀ prev, no_digit s = true → pub_search prev s = None.
Proof.
  induction s as [|c s IH]; intros prev Hs.
  { by rewrite pub_search_eq, pub_at_empty. }
  apply andb_prop in Hs as [Hc Hs]. apply negb_true_iff in Hc.
  rewrite pub_search_eq, pub_at_nondigit by done. by apply IH.
Qed.

Lemma year_at_exact year rest :
  all_digits year = true → (1 ≤ String.length year ≤ 4)%nat → word_at rest = false →
  year_at (year +:+ rest) = Some year.
Proof.
  intros Hy Hlen Hrest.
  pose proof (nonword_no_digit rest Hrest) as Hrun.
  pose proof (take_app year rest) as Htake.
  pose proof (drop_app year rest) as Hdrop.
  assert (∀ m, digits_here m (year +:+ rest) = (m <=? String.length year)%nat) as Hhere.
  { intros m. by apply digits_here_app. }
  unfold year_at, year_attempt. cbn [first_success]. rewrite !Hhere.
  destruct (String.length year) as [|[|[|[|[|k]]]]]; try lia; cbn [Nat.leb andb];
    by rewrite Hdrop, Hrest, Htake.
Qed.

Lemma comma_space_year_digits s : all_digits s = true → comma_space_year s = None.
Proof.
  destruct s as [|a [|c rest]]; try done. intros [Ha _]%andb_prop.
  unfold comma_space_year. by rewrite (digit_not_char a ",").
Qed.

Lemma all_digits_drop n s : all_digits s = true → all_digits (drop n s) = true.
Proof.
  revert s. induction n as [|n IH]; intros [|a s]; try done.
  intros [_ Hs]%andb_prop. simpl. by apply IH.
Qed.

Lemma day_attempt_digits s n : all_digits s = true → day_attempt s n = None.
Proof.
  intros Hs. unfold day_attempt. destruct (digits_here n s); [|done].
  by apply comma_space_year_digits, all_digits_drop.
Qed.

(** A run of at most four digits at the end of the text is the year. *)
Lemma pub_at_year prev year :
  all_digits year = true → (1 ≤ String.length year ≤ 4)%nat →
  pub_at prev year = Some year.
Proof.
  intros Hy Hlen.
  assert (year_at year = Some year) as Hyear.
  { rewrite <- (app_empty_r year) at 1. by apply year_at_exact. }
  unfold pub_at, day_then_year_at. cbn [first_success].
  rewrite !day_attempt_digits, Hyear by done.
  by destruct (boundary prev year).
Qed.

(** A day, a comma, a space and the year: the year is read. *)
Lemma pub_at_day_year prev day_ year :
  from_option is_word_char false prev = false →
  all_digits day_ = true → (1 ≤ String.length day_ ≤ 2)%nat →
  all_digits year = true → (1 ≤ String.length year ≤ 4)%nat →
  pub_at prev (day_ +:+ ", " +:+ year) = Some year.
Proof.
  intros Hprev Hd Hdlen Hy Hylen.
  assert (year_at year = Some year) as Hyear.
  { rewrite <- (app_empty_r year) at 1. by apply year_at_exact. }
  pose proof (drop_app day_ (", " +:+ year)) as Hdrop.
  assert (∀ n, digits_here n (day_ +:+ ", " +:+ year) = (n <=? String.length day_)%nat)
    as Hhere by (intros n; by apply digits_here_app).
  assert (boundary prev (day_ +:+ ", " +:+ year) = true) as Hb.
  { unfold boundary. rewrite Hprev. destruct day_ as [|d day_]; [simpl in Hdlen; lia|].
    apply andb_prop in Hd as [Hd _]. simpl. unfold is_word_char. by rewrite Hd. }
  unfold pub_at, day_then_year_at, day_attempt. rewrite Hb. cbn [first_success].
  rewrite !Hhere.
  destruct (String.length day_) as [|[|[|k]]]; try lia; cbn [Nat.leb];
    rewrite Hdrop; unfold comma_space_year;
    change (", " +:+ year) with (String "," (String " " year)); cbn iota;
    by rewrite Hyear.
Qed.

Lemma last_char_app_single s c : last_char (s +:+ String c "") = Some c.
Proof.
  induction s as [|a s IH]; [done|]. rewrite app_cons. simpl. by rewrite IH.
Qed.

Lemma no_digit_app s t : no_digit (s +:+ t) = no_digit s && no_digit t.
Proof. apply LinkFacts.all_chars_app. Qed.

End PatternsFacts.

(** X19.  The average rating is read only from a number with a decimal
    point.  What is extracted is a run of digits, a point and a run of
    digits; in a cell made of a digit-free label, such a number and a rest
    that does not go on with a digit it is that number; and a cell without
    any point, such as one that shows the rating as [4], gives missing. *)
Theorem rating_text_needs_a_point :
  (∀ cell g, Patterns.rating_text_of cell = Some g →
     ∃ whole frac, g = whole +:+ "." +:+ frac ∧
       whole ≠ "" ∧ PyStr.all_digits whole = true ∧
       frac ≠ "" ∧ PyStr.all_digits frac = true) ∧
  (∀ label whole frac rest,
     PyStr.no_digit label = true →
     whole ≠ "" → PyStr.all_digits whole = true →
     frac ≠ "" → PyStr.all_digits frac = true → Parser.digit_run rest = "" →
     Patterns.rating_text_of (Some (label +:+ whole +:+ "." +:+ frac +:+ rest)) =
       Some (whole +:+ "." +:+ frac)) ∧
  (∀ cell, Lookups.without "." cell = true → Patterns.rating_text_of (Some cell) = None).
Proof.
  split_and!.
  - intros [s|] g; [|done]. simpl.
    induction s as [|c s IH]; rewrite PatternsFacts.decimal_search_eq.
    + destruct (Patterns.decimal_at "") as [g'|] eqn:Hat; [|done].
      intros [= <-]. by apply (PatternsFacts.decimal_at_shape "").
    + destruct (Patterns.decimal_at (String c s)) as [g'|] eqn:Hat; [|done].
      intros [= <-]. by apply (PatternsFacts.decimal_at_shape (String c s)).
  - intros label whole frac rest Hlabel Hw Hwd Hf Hfd Hrest. simpl.
    rewrite PatternsFacts.decimal_search_skip by done.
    rewrite PatternsFacts.decimal_search_eq.
    by rewrite PatternsFacts.decimal_at_number.
  - intros cell. simpl. induction cell as [|c s IH]; intros Hcell.
    + done.
    + rewrite PatternsFacts.decimal_search_eq, PatternsFacts.decimal_at_no_point by done.
      apply andb_prop in Hcell as [_ Hs]. by apply IH.
Qed.

Lemma rating_text_needs_a_point_witness :
  Patterns.rating_text_of (Some "avg rating 4.12") = Some "4.12" ∧
  Patterns.rating_text_of (Some "avg rating 4") = None ∧
  ∃ whole frac, "4.12" = whole +:+ "." +:+ frac ∧ PyStr.all_digits frac = true.
Proof.
  destruct rating_text_needs_a_point as (Hshape & Hnumber & Hnone).
  split_and!.
  - apply (Hnumber "avg rating " "4" "12" ""); try reflexivity; discriminate.
  - apply Hnone. reflexivity.
  - destruct (Hshape (Some "avg rating 4.12") "4.12" eq_refl)
      as (whole & frac & Heq & _ & _ & _ & Hfrac).
    by exists whole, frac.
Defined.

(** X20.  From a publication cell that shows a full date (a digit-free
    month, a space, a day of one or two digits, a comma, a space, and a year
    of one to four digits) the parser reads the year, not the day. *)
Theorem pub_of_full_date (month day_ year : string) :
  PyStr.no_digit month = true →
  PyStr.all_digits day_ = true → (1 ≤ String.length day_ ≤ 2)%nat →
  PyStr.all_digits year = true → (1 ≤ String.length year ≤ 4)%nat →
  Patterns.pub_of ("date pub " +:+ month +:+ " " +:+ day_ +:+ ", " +:+ year) =
    Parser.parse_digits 0 year.
Proof.
  intros Hmonth Hd Hdlen Hy Hylen. unfold Patterns.pub_of.
  rewrite PyStrFacts.replace1_prefix, PyStrFacts.app_empty_l.
  change (month +:+ " " +:+ day_ +:+ ", " +:+ year)
    with (month +:+ String " " "" +:+ day_ +:+ ", " +:+ year).
  rewrite <- PyStrFacts.app_assoc.
  rewrite PatternsFacts.pub_search_skip
    by (rewrite PatternsFacts.no_digit_app, Hmonth; reflexivity).
  rewrite PatternsFacts.last_char_app_single. simpl from_option.
  rewrite PatternsFacts.pub_search_eq, PatternsFacts.pub_at_day_year by done.
  apply ColumnsFacts.to_numeric_digits. intros ->. simpl in Hylen. lia.
Qed.

Lemma pub_of_full_date_witness :
  Patterns.pub_of "date pub Jan 01, 2005" = Some 2005%N ∧
  Patterns.pub_of "date pub Sep 3, 850" = Some 850%N.
Proof.
  split.
  - apply (pub_of_full_date "Jan" "01" "2005"); try reflexivity; simpl; lia.
  - apply (pub_of_full_date "Sep" "3" "850"); try reflexivity; simpl; lia.
Defined.

(** X21.  From a publication cell that ends in a year of one to four
    digits after digit-free text (a bare year, or a month and a year) the
    parser reads that year; from a cell without any digit, such as
    [unknown], it reads nothing. *)
Theorem pub_of_year_only :
  (∀ before year,
     PyStr.no_digit before = true →
     PyStr.all_digits year = true → (1 ≤ String.length year ≤ 4)%nat →
     Patterns.pub_of ("date pub " +:+ before +:+ year) = Parser.parse_digits 0 year) ∧
  (∀ text, PyStr.no_digit text = true → Patterns.pub_of ("date pub " +:+ text) = None).
Proof.
  split.
  - intros before year Hbefore Hy Hylen. unfold Patterns.pub_of.
    rewrite PyStrFacts.replace1_prefix, PyStrFacts.app_empty_l.
    rewrite PatternsFacts.pub_search_skip by done.
    rewrite PatternsFacts.pub_search_eq, PatternsFacts.pub_at_year by done.
    apply ColumnsFacts.to_numeric_digits. intros ->. simpl in Hylen. lia.
  - intros text Htext. unfold Patterns.pub_of.
    rewrite PyStrFacts.replace1_prefix, PyStrFacts.app_empty_l.
    by rewrite PatternsFacts.pub_search_none.
Qed.

Lemma pub_of_year_only_witness :
  Patterns.pub_of "date pub 2005" = Some 2005%N ∧
  Patterns.pub_of "date pub Jan 2005" = Some 2005%N ∧
  Patterns.pub_of "date pub unknown" = None.
Proof.
  destruct pub_of_year_only as [Hyear Hnone].
  split_and!.
  - apply (Hyear "" "2005"); try reflexivity; simpl; lia.
  - apply (Hyear "Jan " "2005"); try reflexivity; simpl; lia.
  - apply (Hnone "unknown"). reflexivity.
Defined.

(** ** [format_date] *)

Module FormatDateFacts.
Import PyStr PyStrFacts Dates.

Lemma startswith_cons a p b s :
  startswith (String a p) (String b s) = Ascii.eqb a b && startswith p s.
Proof. reflexivity. Qed.

Lemma no_space_fourth c1 c2 c3 t : no_space (String c1 (String c2 (String c3 (String " " t)))) = false.
Proof. unfold no_space. simpl. by rewrite !andb_false_r. Qed.

(** A text that starts with the sentinel has a space as its fourth
    character. *)
Lemma startswith_not_set_word w rest :
  no_space w = true → startswith "not set" (w +:+ " 1, " +:+ rest) = false.
Proof.
  intros Hw. destruct w as [|c1 [|c2 [|c3 [|c4 w]]]].
  - reflexivity.
  - rewrite !app_cons, app_empty_l, !startswith_cons.
    by destruct (Ascii.eqb "n" c1).
  - rewrite !app_cons, app_empty_l, !startswith_cons.
    by destruct (Ascii.eqb "n" c1), (Ascii.eqb "o" c2).
  - rewrite !app_cons, app_empty_l, !startswith_cons.
    by destruct (Ascii.eqb "n" c1), (Ascii.eqb "o" c2), (Ascii.eqb "t" c3).
  - rewrite !app_cons, !startswith_cons.
    destruct (Ascii.eqb_spec " " c4) as [<-|]; [by rewrite no_space_fourth in Hw|].
    by destruct (Ascii.eqb "n" c1), (Ascii.eqb "o" c2), (Ascii.eqb "t" c3).
Qed.

Lemma startswith_not_set_no_space t : no_space t = true → startswith "not set" t = false.
Proof.
  intros Ht. destruct t as [|c1 [|c2 [|c3 [|c4 t]]]]; rewrite ?startswith_cons.
  - done.
  - by destruct (Ascii.eqb "n" c1).
  - by destruct (Ascii.eqb "n" c1), (Ascii.eqb "o" c2).
  - by destruct (Ascii.eqb "n" c1), (Ascii.eqb "o" c2), (Ascii.eqb "t" c3).
  - destruct (Ascii.eqb_spec " " c4) as [<-|]; [by rewrite no_space_fourth in Ht|].
    by destruct (Ascii.eqb "n" c1), (Ascii.eqb "o" c2), (Ascii.eqb "t" c3).
Qed.

Lemma find_not_set_no_space t : no_space t = true → find "not set" t = None.
Proof.
  induction t as [|c t IH]; intros Ht; [done|].
  rewrite find_eq, startswith_not_set_no_space by done.
  apply andb_prop in Ht as [_ Ht]. by rewrite IH.
Qed.

Lemma find_not_set_tail p1 : no_space p1 = true → find "not set" (" 1, " +:+ p1) = None.
Proof.
  intros Hp1.
  change (" 1, " +:+ p1) with (String " " (String "1" (String "," (String " " p1)))).
  do 4 (rewrite find_eq; cbn [startswith Ascii.eqb Bool.eqb andb]).
  by rewrite find_not_set_no_space.
Qed.

(** The text with the default day never holds the sentinel. *)
Lemma find_not_set_default_day p0 p1 :
  no_space p0 = true → no_space p1 = true →
  find "not set" (p0 +:+ " 1, " +:+ p1) = None.
Proof.
  intros H0 H1. induction p0 as [|c p0 IH].
  - by apply find_not_set_tail.
  - pose proof (startswith_not_set_word (String c p0) p1 H0) as Hsw.
    rewrite app_cons in Hsw |- *. rewrite find_eq, Hsw.
    apply andb_prop in H0 as [_ H0]. by rewrite IH.
Qed.

Lemma contains_not_set_default_day p0 p1 :
  is_word p0 → is_word p1 → contains "not set" (p0 +:+ " 1, " +:+ p1) = false.
Proof.
  intros [_ H0] [_ H1]. unfold contains.
  rewrite find_not_set_default_day by done. apply bool_decide_eq_false.
  by intros [? ?].
Qed.

End FormatDateFacts.

(** X22.  [format_date] can be applied to its own result without changing
    it: a value it has replaced by missing stays missing, and the text it
    returns (with the default day inserted, or as it was) neither holds the
    sentinel nor has exactly two words. *)
Theorem format_date_idempotent (date_str : option string) :
  Dates.format_date (Dates.format_date date_str) = Dates.format_date date_str.
Proof.
  destruct date_str as [s|]; [|done].
  destruct (Dates.format_date (Some s)) as [t|] eqn:E; [|done].
  unfold Dates.format_date in E.
  destruct (PyStr.contains "not set" s) eqn:Hc; [done|].
  destruct (PyStr.split s) as [|p0 [|p1 [|p2 ps]]] eqn:Hs; injection E as <-;
    try (unfold Dates.format_date; by rewrite Hc, Hs).
  pose proof (PyStrFacts.split_words s) as Hw. rewrite Hs in Hw.
  apply Forall_cons in Hw as [H0 Hw]. apply Forall_cons in Hw as [H1 _].
  unfold Dates.format_date.
  rewrite FormatDateFacts.contains_not_set_default_day by done.
  by rewrite PyStrFacts.split_default_day.
Qed.
